(** * advanced_chatbot: the streaming relay and the session store

    A shallow embedding of the route handlers of the teaching chatbot

      - [src/app/api/chat/route.ts]           (POST: the streaming relay)
      - [src/app/api/sessions/route.ts]       (GET, POST, DELETE, PATCH)
      - [src/app/api/sessions/[id]/route.ts]  (GET: fetch one session)
      - [src/lib/ai/gemini.ts]                (buildPrompt, streamGemini)

    together with the properties the specification states about them.

    Conventions of the embedding.
      - A JavaScript string is the sequence of its code units; the model
        carries them as the characters of a Rocq [string].
      - Request bodies are well-typed ([src/lib/types.ts]) apart from
        missing fields: an optional field is absent or has a value of its
        type, and an absent field is [None].
      - The [chats] collection is the list of its documents in natural
        order; duplicates are possible, and the single-document operations
        act on the first match.
      - The handlers thread a [World] (the collection and the log of calls
        made to the two collaborators) through a small state monad.
      - The store and the session lookup answer every call: the [catch]
        arms that log a failed store operation, or turn it into a 500, are
        not part of the model.  The one refusal that is modelled is that of
        a skip or limit that is not a number.
      - What a handler reads from its surroundings (the authenticated
        session, the clock, a fresh UUID, the behaviour of the upstream
        generation service) is an explicit argument. *)

From stdpp Require Import base list strings sorting numbers.
From Stdlib Require Import Ascii QArith_base DecimalString.
Close Scope Q_scope.

Open Scope string_scope.
Open Scope list_scope.

(* ===================================================================== *)
(** ** JavaScript values and built-ins used by the handlers *)
(* ===================================================================== *)

Module JS.

(** Truthiness of a string: only the empty string is falsy. *)
Definition truthy (s : string) : bool :=
  match s with
  | "" => false
  | String _ _ => true
  end.

(** Truthiness of an optional string. *)
Definition truthy_opt (o : option string) : bool :=
  match o with
  | Some s => truthy s
  | None => false
  end.

(** [a || b] on optional strings. *)
Definition or_else (a b : option string) : option string :=
  if truthy_opt a then a else b.

(** [a || d] with a string default. *)
Definition or_default (a : option string) (d : string) : string :=
  match a with
  | Some s => if truthy s then s else d
  | None => d
  end.

(** WhiteSpace and LineTerminator code units below 256: TAB, LF, VT, FF,
    CR, SP and NBSP. *)
Definition is_white (c : ascii) : bool :=
  match nat_of_ascii c with
  | 9 | 10 | 11 | 12 | 13 | 32 | 160 => true
  | _ => false
  end.

Fixpoint trimStart (s : string) : string :=
  match s with
  | "" => ""
  | String c s' => if is_white c then trimStart s' else s
  end.

Definition trimEnd (s : string) : string :=
  String.rev (trimStart (String.rev s)).

(** [s.trim()] *)
Definition trim (s : string) : string := trimEnd (trimStart s).

(** [s.slice(0, n)] *)
Fixpoint slice0 (n : nat) (s : string) : string :=
  match n, s with
  | S n', String c s' => String c (slice0 n' s')
  | _, _ => ""
  end.

(** The numbers the listing handler computes with: an integer, or NaN.
    (Beyond 2^53 the program holds the nearest double; the model keeps the
    exact integer.) *)
Inductive num : Type :=
| NaN
| Int (z : Z).

Definition digit (c : ascii) : option Z :=
  let n := nat_of_ascii c in
  if (48 <=? n)%nat && (n <=? 57)%nat then Some (Z.of_nat (n - 48)) else None.

(** The longest prefix of decimal digits, as a number; [acc] is the value
    read so far, [None] while no digit has been read. *)
Fixpoint digits (s : string) (acc : option Z) : option Z :=
  match s with
  | "" => acc
  | String c s' =>
      match digit c with
      | Some d => digits s' (Some (10 * default 0%Z acc + d)%Z)
      | None => acc
      end
  end.

(** [parseInt(s, 10)]: leading white space is skipped, one sign is
    accepted, then the longest run of digits is read; no digit gives NaN. *)
Definition parseInt (s : string) : num :=
  let t := trimStart s in
  let '(neg, body) :=
    match t with
    | String "-" r => (true, r)
    | String "+" r => (false, r)
    | _ => (false, t)
    end in
  match digits body None with
  | None => NaN
  | Some n => Int (if neg : bool then - n else n)%Z
  end.

(** [Math.max] and [Math.min]: NaN if either argument is NaN. *)
Definition Math_max (a b : num) : num :=
  match a, b with
  | Int x, Int y => Int (Z.max x y)
  | _, _ => NaN
  end.

Definition Math_min (a b : num) : num :=
  match a, b with
  | Int x, Int y => Int (Z.min x y)
  | _, _ => NaN
  end.

Definition sub (a b : num) : num :=
  match a, b with
  | Int x, Int y => Int (x - y)
  | _, _ => NaN
  end.

Definition mul (a b : num) : num :=
  match a, b with
  | Int x, Int y => Int (x * y)
  | _, _ => NaN
  end.

(** [Math.ceil(total / pageSize) || 1] for a count [total >= 0]: a NaN
    page size makes the quotient NaN, which is falsy, as is 0.  (A page
    size that is a number has been clamped where the handler evaluates
    this, so the divisor is at least 5.) *)
Definition ceil_div_or_1 (total : Z) (pageSize : num) : Z :=
  match pageSize with
  | NaN => 1
  | Int p =>
      let c := (- ((- total) `div` p))%Z in
      if (c =? 0)%Z then 1%Z else c
  end.

(** ASCII lower-casing, for the case-insensitive regular expression. *)
Definition lower (c : ascii) : ascii :=
  let n := nat_of_ascii c in
  if (65 <=? n)%nat && (n <=? 90)%nat then ascii_of_nat (n + 32) else c.

End JS.

(* ===================================================================== *)
(** ** Shared types ([src/lib/types.ts]) *)
(* ===================================================================== *)

Inductive ChatRole : Type :=
| user
| assistant
| system.

Definition ChatRole_eqb (a b : ChatRole) : bool :=
  match a, b with
  | user, user | assistant, assistant | system, system => true
  | _, _ => false
  end.

Record ChatMessage : Type := {
  role : ChatRole;
  content : string;
}.

(** Sampling parameters are only stored and forwarded; a JSON number is kept
    as a rational. *)
Definition number : Type := Q.

(** A document of the [chats] collection.  The chat route inserts whatever
    sampling parameters the request carries, so these may be missing. *)
Record StoredChatSession : Type := {
  sessionId : string;
  title : string;
  messages : list ChatMessage;
  model : string;
  temperature : option number;
  topP : option number;
  maxTokens : option number;
  userId : option string;
  createdAt : string;
  updatedAt : string;
}.

Record ChatListItem : Type := {
  item_sessionId : string;
  item_title : string;
  item_createdAt : string;
  item_updatedAt : string;
  item_model : string;
}.

Record ChatListResponse : Type := {
  items : list ChatListItem;
  page : JS.num;
  total : Z;
  totalPages : Z;
}.

(** The lines the relay writes, each standing for the encoded text
    [data: {"type":...,"data":...}] or [data: [DONE]]. *)
Inductive StreamEnvelope : Type :=
| token (data : string)
| meta (tokens : nat) (elapsedMs : Z)
| error (data : string)
| DONE.

(** The state of a [ReadableStream] controller: what has been enqueued, and
    whether [close] was called. *)
Record Controller : Type := {
  enqueued : list StreamEnvelope;
  closed : bool;
}.

(** What a handler answers. *)
Inductive Response : Type :=
| text_response (status : Z) (body : string)
| empty_response (status : Z)
| json_list (resp : ChatListResponse)
| json_doc (doc : StoredChatSession)
| json_created (newSessionId : string)
| event_stream (out : Controller).

Definition status_of (r : Response) : Z :=
  match r with
  | text_response s _ => s
  | empty_response s => s
  | json_list _ | json_doc _ | json_created _ | event_stream _ => 200
  end.

(** The [user] object of an authenticated session. *)
Record SessionUser : Type := {
  id : option string;
  email : option string;
}.

(* ===================================================================== *)
(** ** The upstream generation service ([src/lib/ai/gemini.ts]) *)
(* ===================================================================== *)

Module Gemini.

Record StreamParams : Type := {
  p_model : string;
  p_temperature : option number;
  p_topP : option number;
  p_maxTokens : option number;
  p_messages : list ChatMessage;
}.

(** The request handed to the SDK. *)
Record GenerateContentRequest : Type := {
  g_model : string;
  g_prompt : string;
  g_temperature : option number;
  g_topP : option number;
  g_maxOutputTokens : option number;
}.

Definition toUpperCase (r : ChatRole) : string :=
  match r with
  | user => "USER"
  | assistant => "ASSISTANT"
  | system => "SYSTEM"
  end.

(** [lines.join("\n")] *)
Fixpoint join_lines (lines : list string) : string :=
  match lines with
  | [] => ""
  | [l] => l
  | l :: rest => l +:+ String "010" (join_lines rest)
  end.

Definition buildPrompt (msgs : list ChatMessage) : string :=
  join_lines (map (fun m => toUpperCase (role m) +:+ ": " +:+ content m) msgs).

(** What iterating [result.stream] does: it ends, or yields a chunk whose
    [text()] is the given string and goes on, or throws an error with the
    given message. *)
Inductive ChunkStream : Type :=
| Exhausted
| Chunk (text : string) (rest : ChunkStream)
| Throws (message : string).

(** What [generateContentStream] does: it rejects, or returns a stream. *)
Inductive Upstream : Type :=
| Rejects (message : string)
| Opens (stream : ChunkStream).

(** An upstream run that yields the given fragments and then ends. *)
Definition yields (frags : list string) : ChunkStream :=
  foldr Chunk Exhausted frags.

(** An upstream run that yields the given fragments and then fails. *)
Definition yields_then_throws (frags : list string) (msg : string) : ChunkStream :=
  foldr Chunk (Throws msg) frags.

End Gemini.

(* ===================================================================== *)
(** ** The world the handlers act on *)
(* ===================================================================== *)

(** Calls made to the two collaborators, oldest first. *)
Inductive Effect : Type :=
| db_findOne
| db_insertOne
| db_updateOne
| db_deleteOne
| db_countDocuments
| db_find
| upstream_call (req : Gemini.GenerateContentRequest).

Record World : Type := {
  chats : list StoredChatSession;
  calls : list Effect;
}.

Definition M (A : Type) : Type := World -> A * World.

#[global] Instance M_ret : MRet M := fun A a w => (a, w).

#[global] Instance M_bind : MBind M :=
  fun A B k m w => let '(a, w') := m w in k a w'.

Definition called (e : Effect) : M unit :=
  fun w => (tt, {| chats := chats w; calls := calls w ++ [e] |}).

Definition read_chats : M (list StoredChatSession) :=
  fun w => (chats w, w).

Definition write_chats (c : list StoredChatSession) : M unit :=
  fun w => (tt, {| chats := c; calls := calls w |}).

(* ===================================================================== *)
(** ** The [chats] collection ([src/lib/db.ts] and the driver) *)
(* ===================================================================== *)

Module Db.

Definition Filter : Type := StoredChatSession -> bool.

(** The filter [{ sessionId, userId }]. *)
Definition by_session_and_user (sid uid : string) : Filter :=
  fun d => String.eqb (sessionId d) sid && bool_decide (userId d = Some uid).

(** The first document matching the filter is replaced. *)
Fixpoint update_first (f : Filter) (u : StoredChatSession -> StoredChatSession)
    (col : list StoredChatSession) : list StoredChatSession :=
  match col with
  | [] => []
  | d :: rest => if f d then u d :: rest else d :: update_first f u rest
  end.

(** The first document matching the filter is removed. *)
Fixpoint delete_first (f : Filter) (col : list StoredChatSession)
    : list StoredChatSession :=
  match col with
  | [] => []
  | d :: rest => if f d then rest else d :: delete_first f rest
  end.

Definition findOne (f : Filter) : M (option StoredChatSession) :=
  called db_findOne;;
  col ← read_chats;
  mret (List.find f col).

Definition insertOne (d : StoredChatSession) : M unit :=
  called db_insertOne;;
  col ← read_chats;
  write_chats (col ++ [d]).

(** [updateOne(filter, update)] without upsert. *)
Definition updateOne (f : Filter) (u : StoredChatSession -> StoredChatSession)
    : M unit :=
  called db_updateOne;;
  col ← read_chats;
  write_chats (update_first f u col).

Definition deleteOne (f : Filter) : M unit :=
  called db_deleteOne;;
  col ← read_chats;
  write_chats (delete_first f col).

Definition countDocuments (f : Filter) : M Z :=
  called db_countDocuments;;
  col ← read_chats;
  mret (Z.of_nat (length (List.filter f col))).

(** [{ updatedAt: -1 }]: a document comes before those that were updated
    no later. *)
Definition newest_first (a b : StoredChatSession) : Prop :=
  String.le (updatedAt b) (updatedAt a).

#[global] Instance newest_first_dec : RelDecision newest_first.
Proof. intros a b. unfold newest_first. apply _. Defined.

(** The projection [{ messages: 0 }]: the document without its
    transcript. *)
Definition without_messages (d : StoredChatSession) : StoredChatSession :=
  {| sessionId := sessionId d; title := title d;
     messages := [];
     model := model d; temperature := temperature d; topP := topP d;
     maxTokens := maxTokens d; userId := userId d;
     createdAt := createdAt d; updatedAt := updatedAt d |}.

(** [find(filter, { projection: { messages: 0 } }).sort({ updatedAt: -1 })
      .skip(s).limit(n).toArray()].
    A skip or limit that is not a number of documents (NaN) is refused by
    the store, which is [None]. *)
Definition find_sorted_page (f : Filter) (skip limit : JS.num)
    : M (option (list StoredChatSession)) :=
  called db_find;;
  col ← read_chats;
  match skip, limit with
  | JS.Int s, JS.Int n =>
      mret (Some (without_messages <$>
                    take (Z.to_nat n)
                      (drop (Z.to_nat s)
                         (merge_sort newest_first (List.filter f col)))))
  | _, _ => mret None
  end.

(** [$push: { messages: m }] *)
Definition push_message (m : ChatMessage) (d : StoredChatSession)
    : StoredChatSession :=
  {| sessionId := sessionId d; title := title d;
     messages := messages d ++ [m];
     model := model d; temperature := temperature d; topP := topP d;
     maxTokens := maxTokens d; userId := userId d;
     createdAt := createdAt d; updatedAt := updatedAt d |}.

End Db.

(* ===================================================================== *)
(** ** POST /api/chat ([src/app/api/chat/route.ts]) *)
(* ===================================================================== *)

Module ChatRoute.

(** The parsed request body.  [req_messages] is [None] when the field is
    missing or is not an array, the only distinction the handler makes. *)
Record ChatRequestBody : Type := {
  req_messages : option (list ChatMessage);
  req_model : option string;
  req_temperature : option number;
  req_topP : option number;
  req_maxTokens : option number;
  req_sessionId : option string;
}.

(** What one invocation reads from its surroundings. *)
Record Env : Type := {
  json : option ChatRequestBody;  (* [await req.json()]; [None]: it throws *)
  session : option SessionUser;   (* [getServerSession(authOptions)] *)
  started : Z;                    (* [Date.now()] on entry *)
  finished : Z;                   (* [Date.now()] after the last chunk *)
  preIso : string;                (* the time stamp of the pre-step *)
  postIso : string;               (* the time stamp of the post-step *)
  upstream : Gemini.Upstream;     (* how the generation service behaves *)
}.

(** [session?.user?.id || session?.user?.email || undefined] *)
Definition userId_of (s : option SessionUser) : option string :=
  match s with
  | None => None
  | Some u =>
      let o := JS.or_else (id u) (email u) in
      if JS.truthy_opt o then o else None
  end.

(** [if (sessionId && userId)] *)
Definition persisting (sid uid : option string) : option (string * string) :=
  match sid, uid with
  | Some s, Some u => if JS.truthy s && JS.truthy u then Some (s, u) else None
  | _, _ => None
  end.

Definition is_user (m : ChatMessage) : bool := ChatRole_eqb (role m) user.

(** [messages.find(m => m.role === 'user' && m.content.trim())
      ?.content.slice(0, 60) || 'New Chat'] *)
Definition derive_title (msgs : list ChatMessage) : string :=
  JS.or_default
    (JS.slice0 60 ∘ content <$>
       List.find (fun m => is_user m && JS.truthy (JS.trim (content m))) msgs)
    "New Chat".

(** [[...messages].reverse().find(m => m.role === 'user')] *)
Definition lastUser (msgs : list ChatMessage) : option ChatMessage :=
  List.find is_user (rev msgs).

(** The [$set] of the append branch. *)
Definition refresh (nowIso mdl : string) (body : ChatRequestBody)
    (d : StoredChatSession) : StoredChatSession :=
  {| sessionId := sessionId d; title := title d; messages := messages d;
     model := mdl;
     temperature := req_temperature body;
     topP := req_topP body;
     maxTokens := req_maxTokens body;
     userId := userId d; createdAt := createdAt d;
     updatedAt := nowIso |}.

(** Lines 37-72: create the session document, or append the latest user
    message to it. *)
Definition pre_stream (sid uid nowIso : string) (msgs : list ChatMessage)
    (mdl : string) (body : ChatRequestBody) : M unit :=
  existing ← Db.findOne (Db.by_session_and_user sid uid);
  match existing with
  | None =>
      Db.insertOne
        {| sessionId := sid;
           title := derive_title msgs;
           messages := msgs;
           model := mdl;
           temperature := req_temperature body;
           topP := req_topP body;
           maxTokens := req_maxTokens body;
           userId := Some uid;
           createdAt := nowIso;
           updatedAt := nowIso |}
  | Some _ =>
      match lastUser msgs with
      | Some m =>
          Db.updateOne (Db.by_session_and_user sid uid)
            (refresh nowIso mdl body ∘ Db.push_message m)
      | None => mret tt
      end
  end.

Definition streamGemini (up : Gemini.Upstream) (p : Gemini.StreamParams)
    : M Gemini.Upstream :=
  called (upstream_call
            {| Gemini.g_model := Gemini.p_model p;
               Gemini.g_prompt := Gemini.buildPrompt (Gemini.p_messages p);
               Gemini.g_temperature := Gemini.p_temperature p;
               Gemini.g_topP := Gemini.p_topP p;
               Gemini.g_maxOutputTokens := Gemini.p_maxTokens p |});;
  mret up.

Definition enqueue (e : StreamEnvelope) (c : Controller) : Controller :=
  {| enqueued := enqueued c ++ [e]; closed := closed c |}.

Definition close (c : Controller) : Controller :=
  {| enqueued := enqueued c; closed := true |}.

(** The variables of [start]. *)
Record Relay : Type := {
  tokenCount : nat;
  finalText : string;
  controller : Controller;
}.

Definition relay0 : Relay :=
  {| tokenCount := 0; finalText := "";
     controller := {| enqueued := []; closed := false |} |}.

(** The body of the loop, for a chunk whose [text()] is [text]. *)
Definition on_chunk (text : string) (r : Relay) : Relay :=
  if JS.truthy text then
    {| tokenCount := tokenCount r + 1;
       finalText := finalText r +:+ text;
       controller := enqueue (token text) (controller r) |}
  else r.

(** How the [for await] loop is left. *)
Inductive Completion : Type :=
| completed
| thrown (message : string).

Fixpoint for_await (s : Gemini.ChunkStream) (r : Relay) : Relay * Completion :=
  match s with
  | Gemini.Exhausted => (r, completed)
  | Gemini.Throws msg => (r, thrown msg)
  | Gemini.Chunk text rest => for_await rest (on_chunk text r)
  end.

(** Lines 104-118: append the assistant's reply. *)
Definition post_stream (sid uid nowIso text : string) : M unit :=
  Db.updateOne (Db.by_session_and_user sid uid)
    (fun d =>
       let d' := Db.push_message {| role := assistant; content := text |} d in
       {| sessionId := sessionId d'; title := title d'; messages := messages d';
          model := model d'; temperature := temperature d'; topP := topP d';
          maxTokens := maxTokens d'; userId := userId d';
          createdAt := createdAt d'; updatedAt := nowIso |}).

(** [start(controller)], run until the stream is closed. *)
Definition start (env : Env) (sid uid : option string)
    (s : Gemini.ChunkStream) : M Controller :=
  let '(r, c) := for_await s relay0 in
  match c with
  | completed =>
      let elapsed := (finished env - started env)%Z in
      let ctl := enqueue (meta (tokenCount r) elapsed) (controller r) in
      let ctl := enqueue DONE ctl in
      match persisting sid uid with
      | Some (sid', uid') => post_stream sid' uid' (postIso env) (finalText r)
      | None => mret tt
      end;;
      mret (close ctl)
  | thrown msg =>
      mret (close (enqueue (error (JS.or_default (Some msg) "stream error"))
                     (controller r)))
  end.

Definition POST (env : Env) : M Response :=
  match json env with
  | None => mret (text_response 400 "Invalid JSON")
  | Some body =>
      match req_messages body, req_model body with
      | Some msgs, Some mdl =>
          if JS.truthy mdl then
            let uid := userId_of (session env) in
            let sid := req_sessionId body in
            match persisting sid uid with
            | Some (sid', uid') => pre_stream sid' uid' (preIso env) msgs mdl body
            | None => mret tt
            end;;
            up ← streamGemini (upstream env)
                   {| Gemini.p_model := mdl;
                      Gemini.p_temperature := req_temperature body;
                      Gemini.p_topP := req_topP body;
                      Gemini.p_maxTokens := req_maxTokens body;
                      Gemini.p_messages := msgs |};
            match up with
            | Gemini.Rejects msg =>
                mret (text_response 500
                        ("Upstream error: " +:+ JS.or_default (Some msg) "unknown error"))
            | Gemini.Opens s =>
                out ← start env sid uid s;
                mret (event_stream out)
            end
          else mret (text_response 400 "Missing required fields")
      | _, _ => mret (text_response 400 "Missing required fields")
      end
  end.

End ChatRoute.

(* ===================================================================== *)
(** ** /api/sessions ([src/app/api/sessions/route.ts]) *)
(* ===================================================================== *)

Module SessionsRoute.

(** The query parameters the handlers read; [None] is what
    [searchParams.get] answers for a parameter that is not there. *)
Record Query : Type := {
  q_page : option string;
  q_pageSize : option string;
  q_q : option string;
  q_id : option string;
}.

(** [Math.max(1, parseInt(searchParams.get('page') || '1', 10))] *)
Definition page_of (query : Query) : JS.num :=
  JS.Math_max (JS.Int 1) (JS.parseInt (JS.or_default (q_page query) "1")).

(** [Math.min(50, Math.max(5, parseInt(searchParams.get('pageSize') || '20', 10)))] *)
Definition pageSize_of (query : Query) : JS.num :=
  JS.Math_min (JS.Int 50)
    (JS.Math_max (JS.Int 5) (JS.parseInt (JS.or_default (q_pageSize query) "20"))).

(** [(searchParams.get('q') || '').trim()] *)
Definition q_of (query : Query) : string :=
  JS.trim (JS.or_default (q_q query) "").

(** [id || email || fallback] *)
Definition userId_of (u : SessionUser) (fallback : string) : string :=
  JS.or_default (JS.or_else (id u) (email u)) fallback.

(** Whether [q] occurs at the head of [s], letter case apart. *)
Fixpoint starts_with_ci (q s : string) : bool :=
  match q, s with
  | "", _ => true
  | String a q', String b s' =>
      Ascii.eqb (JS.lower a) (JS.lower b) && starts_with_ci q' s'
  | String _ _, "" => false
  end.

(** [{ $regex: escaped(q), $options: 'i' }]: with every metacharacter of
    [q] escaped the expression matches exactly the strings in which [q]
    occurs, letter case apart. *)
Fixpoint regex_i (q s : string) : bool :=
  starts_with_ci q s ||
  match s with
  | "" => false
  | String _ s' => regex_i q s'
  end.

(** [{ userId }], with [title] added when [q] is not empty. *)
Definition list_filter (uid q : string) : Db.Filter :=
  fun d =>
    bool_decide (userId d = Some uid) &&
    (if JS.truthy q then regex_i q (title d) else true).

(** [d.sessionId && d.title && d.createdAt && d.updatedAt && d.model] *)
Definition complete (d : StoredChatSession) : bool :=
  JS.truthy (sessionId d) && JS.truthy (title d) && JS.truthy (createdAt d)
  && JS.truthy (updatedAt d) && JS.truthy (model d).

Definition to_item (d : StoredChatSession) : ChatListItem :=
  {| item_sessionId := sessionId d;
     item_title := title d;
     item_createdAt := createdAt d;
     item_updatedAt := updatedAt d;
     item_model := model d |}.

Definition GET (session : option SessionUser) (query : Query) : M Response :=
  let page := page_of query in
  let pageSize := pageSize_of query in
  let q := q_of query in
  match session with
  | None => mret (text_response 401 "Unauthorized")
  | Some u =>
      let uid := userId_of u "unknown" in
      let filter := list_filter uid q in
      total ← Db.countDocuments filter;
      docs ← Db.find_sorted_page filter
               (JS.mul (JS.sub page (JS.Int 1)) pageSize) pageSize;
      match docs with
      | None => mret (text_response 500 "Failed to list sessions")
      | Some docs =>
          mret (json_list
                  {| items := to_item <$> List.filter complete docs;
                     page := page;
                     total := total;
                     totalPages := JS.ceil_div_or_1 total pageSize |})
      end
  end.

Record ModelConfig : Type := {
  cfg_model : option string;
  cfg_temperature : option number;
  cfg_topP : option number;
  cfg_maxTokens : option number;
}.

Record CreateChatSessionRequest : Type := {
  c_title : option string;
  c_messages : option (list ChatMessage);
  c_config : option ModelConfig;
}.

(** [title || (messages.find(m => m.role === 'user')?.content?.slice(0, 60)
      || 'New Chat')] *)
Definition create_title (ttl : option string) (msgs : list ChatMessage) : string :=
  JS.or_default ttl
    (JS.or_default
       (JS.slice0 60 ∘ content <$> List.find ChatRoute.is_user msgs)
       "New Chat").

(** [config?.model], when it is truthy, with the configuration. *)
Definition config_with_model (c : option ModelConfig)
    : option (ModelConfig * string) :=
  match c with
  | Some config =>
      match cfg_model config with
      | Some mdl => if JS.truthy mdl then Some (config, mdl) else None
      | None => None
      end
  | None => None
  end.

(** [json] is the parsed body ([None]: [req.json()] throws), [uuid] what
    [randomUUID()] returns and [now] the current time stamp. *)
Definition POST (session : option SessionUser) (uuid now : string)
    (json : option CreateChatSessionRequest) : M Response :=
  match json with
  | None => mret (text_response 400 "Invalid JSON")
  | Some body =>
      let msgs := default [] (c_messages body) in
      match config_with_model (c_config body) with
      | None => mret (text_response 400 "Missing config.model")
      | Some (config, mdl) =>
          match session with
          | None => mret (text_response 401 "Unauthorized")
          | Some u =>
              let uid := userId_of u "unknown" in
              let newSession :=
                {| sessionId := uuid;
                   title := create_title (c_title body) msgs;
                   messages := msgs;
                   model := mdl;
                   temperature := cfg_temperature config;
                   topP := cfg_topP config;
                   maxTokens := cfg_maxTokens config;
                   userId := Some uid;
                   createdAt := now;
                   updatedAt := now |} in
              Db.insertOne newSession;;
              mret (json_created (sessionId newSession))
          end
      end
  end.

Definition DELETE (session : option SessionUser) (query : Query) : M Response :=
  match q_id query with
  | Some i =>
      if JS.truthy i then
        match session with
        | None => mret (text_response 401 "Unauthorized")
        | Some u =>
            let uid := userId_of u "__" in
            Db.deleteOne (Db.by_session_and_user i uid);;
            mret (empty_response 204)
        end
      else mret (text_response 400 "Missing id")
  | None => mret (text_response 400 "Missing id")
  end.

(** The body of a PATCH: [Partial<StoredChatSession>]. *)
Record PatchBody : Type := {
  u_sessionId : option string;
  u_title : option string;
  u_messages : option (list ChatMessage);
  u_model : option string;
  u_temperature : option number;
  u_topP : option number;
  u_maxTokens : option number;
}.

(** [$set: update], where [update] holds [updatedAt] and the fields that
    passed their test: [if (title)], [if (messages)], [if (model)],
    [if (temperature != null)], [if (topP != null)],
    [if (maxTokens != null)]. *)
Definition apply_update (now : string) (body : PatchBody)
    (d : StoredChatSession) : StoredChatSession :=
  {| sessionId := sessionId d;
     title := JS.or_default (u_title body) (title d);
     messages := default (messages d) (u_messages body);
     model := JS.or_default (u_model body) (model d);
     temperature := match u_temperature body with
                    | Some t => Some t
                    | None => temperature d
                    end;
     topP := match u_topP body with
             | Some t => Some t
             | None => topP d
             end;
     maxTokens := match u_maxTokens body with
                  | Some t => Some t
                  | None => maxTokens d
                  end;
     userId := userId d;
     createdAt := createdAt d;
     updatedAt := now |}.

Definition PATCH (session : option SessionUser) (now : string)
    (json : option PatchBody) : M Response :=
  match json with
  | None => mret (text_response 400 "Invalid JSON")
  | Some body =>
      match u_sessionId body with
      | Some sid =>
          if JS.truthy sid then
            match session with
            | None => mret (text_response 401 "Unauthorized")
            | Some u =>
                let uid := userId_of u "__" in
                Db.updateOne (Db.by_session_and_user sid uid)
                  (apply_update now body);;
                mret (empty_response 204)
            end
          else mret (text_response 400 "Missing sessionId")
      | None => mret (text_response 400 "Missing sessionId")
      end
  end.

End SessionsRoute.

(* ===================================================================== *)
(** ** GET /api/sessions/[id] ([src/app/api/sessions/[id]/route.ts]) *)
(* ===================================================================== *)

Module SessionByIdRoute.

Definition GET (session : option SessionUser) (i : string) : M Response :=
  if JS.truthy i then
    match session with
    | None => mret (text_response 401 "Unauthorized")
    | Some u =>
        let uid := SessionsRoute.userId_of u "__" in
        doc ← Db.findOne (Db.by_session_and_user i uid);
        match doc with
        | None => mret (text_response 404 "Not found")
        | Some d => mret (json_doc d)
        end
    end
  else mret (text_response 400 "Missing id").

End SessionByIdRoute.

(* ===================================================================== *)
(** ** The search expression of the listing
       ([src/app/api/sessions/route.ts], line 51) *)
(* ===================================================================== *)

Module Regex.



End Regex.

(* ===================================================================== *)
(** ** Accounts: POST /api/auth/register
       ([src/app/api/auth/register/route.ts]) and the credentials provider
       ([src/lib/auth.ts]) *)
(* ===================================================================== *)

Module Accounts.

(** [s.toLowerCase()] on code units below 256: the letters A-Z and the
    capital letters of Latin-1 (U+00C0-U+00DE, the sign U+00D7 apart) are
    moved up by 32. *)
Definition lower_unit (c : ascii) : ascii :=
  let n := nat_of_ascii c in
  if ((65 <=? n)%nat && (n <=? 90)%nat)
     || ((192 <=? n)%nat && (n <=? 222)%nat && negb (n =? 215)%nat)
  then ascii_of_nat (n + 32) else c.

Fixpoint toLowerCase (s : string) : string :=
  match s with
  | "" => ""
  | String c s' => String (lower_unit c) (toLowerCase s')
  end.

(** A document of the [users] collection. *)
Record AppUser : Type := {
  user_userId : string;
  user_email : string;
  passwordHash : string;
  user_createdAt : string;
  user_updatedAt : string;
}.

(** [col.findOne({ email })] *)
Definition findOne_by_email (e : string) (users : list AppUser)
    : option AppUser :=
  List.find (fun u => String.eqb (user_email u) e) users.

(** The body of a registration request. *)
Record RegisterBody : Type := {
  r_email : option string;
  r_password : option string;
}.

(** What one registration reads from its surroundings: the answer of
    [randomUUID()], the current time stamp, and what [bcrypt.hash]
    answers for a password in this invocation. *)
Record RegisterEnv : Type := {
  uuid : string;
  now : string;
  bcrypt_hash : string -> string;
}.

(** [body.email?.toLowerCase().trim()] *)
Definition normalized_email (body : RegisterBody) : option string :=
  (fun e => JS.trim (toLowerCase e)) <$> r_email body.

(** [!email || !password || password.length < 6] *)
Definition refused (e : option string) (p : option string) : bool :=
  negb (JS.truthy_opt e) || negb (JS.truthy_opt p) ||
  match p with
  | Some pw => (String.length pw <? 6)%nat
  | None => false
  end.

(** The handler, on the [users] collection. *)
Definition POST (env : RegisterEnv) (json : option RegisterBody)
    (users : list AppUser) : Response * list AppUser :=
  match json with
  | None => (text_response 400 "Invalid JSON", users)
  | Some body =>
      let e := normalized_email body in
      let p := r_password body in
      if refused e p
      then (text_response 400 "Invalid email or password too short", users)
      else
        match e, p with
        | Some em, Some pw =>
            match findOne_by_email em users with
            | Some _ => (text_response 409 "Email already registered", users)
            | None =>
                let account :=
                  {| user_userId := uuid env; user_email := em;
                     passwordHash := bcrypt_hash env pw;
                     user_createdAt := now env; user_updatedAt := now env |} in
                (empty_response 201, users ++ [account])
            end
        | _, _ =>
            (text_response 400 "Invalid email or password too short", users)
        end
  end.

(** The credentials handed to [authorize]. *)
Record Credentials : Type := {
  c_email : option string;
  c_password : option string;
}.

(** [authorize(credentials)]; [bcrypt_compare] is [bcrypt.compare], and
    the answer [None] is [null]. *)
Definition authorize (bcrypt_compare : string -> string -> bool)
    (users : list AppUser) (credentials : option Credentials)
    : option SessionUser :=
  match credentials with
  | None => None
  | Some cr =>
      let e := toLowerCase <$> c_email cr in
      match e, c_password cr with
      | Some em, Some pw =>
          if JS.truthy em && JS.truthy pw then
            match findOne_by_email em users with
            | None => None
            | Some account =>
                if bcrypt_compare pw (passwordHash account)
                then Some {| id := Some (user_userId account);
                             email := Some (user_email account) |}
                else None
            end
          else None
      | _, _ => None
      end
  end.

(** The part of the token the callbacks use. *)
Record Token : Type := {
  uid : option string;
}.

(** [callbacks.jwt({ token, user })]; the user is there at sign-in only. *)
Definition jwt (token : Token) (signed_in : option SessionUser) : Token :=
  match signed_in with
  | Some u => {| uid := id u |}
  | None => token
  end.

(** [callbacks.session({ session, token })], on the session's [user]. *)
Definition session (session_user : option SessionUser) (token : Token)
    : option SessionUser :=
  match session_user with
  | Some u =>
      if JS.truthy_opt (uid token)
      then Some {| id := uid token; email := email u |}
      else Some u
  | None => None
  end.

(** [mapUserId(session)] *)
Definition mapUserId (s : option SessionUser) : option string :=
  s ≫= id.

End Accounts.

(* ===================================================================== *)
(** ** The lines of the stream ([src/app/api/chat/route.ts], lines 93-122) *)
(* ===================================================================== *)

Module Json.

(** The double quote. *)
Definition dq : ascii := "034"%char.

(** [s] between double quotes, as it is. *)
Definition quoted (s : string) : string := String dq (s +:+ String dq "").

Definition hex_digit (n : nat) : ascii :=
  match n with
  | 0 => "0" | 1 => "1" | 2 => "2" | 3 => "3" | 4 => "4" | 5 => "5"
  | 6 => "6" | 7 => "7" | 8 => "8" | 9 => "9" | 10 => "a" | 11 => "b"
  | 12 => "c" | 13 => "d" | 14 => "e" | _ => "f"
  end%char.

(** How [JSON.stringify] writes one code unit of a string: the quote and
    the backslash are escaped, the control characters are written as
    [\b], [\t], [\n], [\f], [\r] or [\u00XX], and every other code unit is
    written as it is. *)
Definition escape_unit (c : ascii) : string :=
  let n := nat_of_ascii c in
  match n with
  | 34 => String "\" (String dq "")
  | 92 => String "\" (String "\" "")
  | 8 => String "\" "b"
  | 9 => String "\" "t"
  | 10 => String "\" "n"
  | 12 => String "\" "f"
  | 13 => String "\" "r"
  | _ =>
      if (n <? 32)%nat
      then String "\" (String "u" (String "0" (String "0"
             (String (hex_digit (n / 16)) (String (hex_digit (n mod 16)) "")))))
      else String c ""
  end.

Fixpoint escape_units (s : string) : string :=
  match s with
  | "" => ""
  | String c s' => escape_unit c +:+ escape_units s'
  end.

(** [JSON.stringify(s)] for a string. *)
Definition stringify_string (s : string) : string :=
  String dq (escape_units s +:+ String dq "").

(** [JSON.stringify(n)] for an integer (below 10^21 in size, where
    JavaScript writes all the digits). *)
Definition stringify_int (z : Z) : string :=
  NilZero.string_of_int (Z.to_int z).

End Json.

Module Wire.

(** The text after [data: ] on the line of an envelope. *)
Definition payload (e : StreamEnvelope) : string :=
  match e with
  | token d =>
      "{" +:+ Json.quoted "type" +:+ ":" +:+ Json.quoted "token" +:+ ","
      +:+ Json.quoted "data" +:+ ":" +:+ Json.stringify_string d +:+ "}"
  | meta n ms =>
      "{" +:+ Json.quoted "type" +:+ ":" +:+ Json.quoted "meta" +:+ ","
      +:+ Json.quoted "data" +:+ ":"
      +:+ ("{" +:+ Json.quoted "tokens" +:+ ":"
           +:+ Json.stringify_int (Z.of_nat n) +:+ ","
           +:+ Json.quoted "elapsedMs" +:+ ":" +:+ Json.stringify_int ms
           +:+ "}")
      +:+ "}"
  | error d =>
      "{" +:+ Json.quoted "type" +:+ ":" +:+ Json.quoted "error" +:+ ","
      +:+ Json.quoted "data" +:+ ":" +:+ Json.stringify_string d +:+ "}"
  | DONE => "[DONE]"
  end.

(** The line the relay enqueues for an envelope. *)
Definition line (e : StreamEnvelope) : string :=
  "data: " +:+ payload e +:+ String "010" "".

(** What the relay has written: the enqueued lines, in order. *)
Definition written (out : Controller) : list string :=
  line <$> enqueued out.

End Wire.

(* ===================================================================== *)
(** ** The chat component ([src/app/components/Chat.tsx]) *)
(* ===================================================================== *)

Module Client.

Record PendingAssistantState : Type := {
  text : string;
  tokens : nat;
  elapsedMs : option Z;
}.

Record ModelConfig : Type := {
  model : string;
  temperature : number;
  topP : number;
  maxTokens : option number;
}.

(** The state of the component that sending a message reads or writes;
    [refreshes] counts the calls of [refreshSessions]. *)
Record State : Type := {
  messages : list ChatMessage;
  config : ModelConfig;
  userInput : string;
  streaming : bool;
  pending : option PendingAssistantState;
  activeSessionId : option string;
  refreshes : nat;
}.

(** [chunk.split(/\n/)] *)
Fixpoint split (s : string) : list string :=
  match s with
  | "" => [""]
  | String c s' =>
      if Ascii.eqb c "010" then "" :: split s'
      else match split s' with
           | h :: t => String c h :: t
           | [] => [String c ""]
           end
  end.

(** [line.replace(/^data: /, '')] *)
Definition strip_data (l : string) : string :=
  if String.prefix "data: " l then String.substring 6 (String.length l - 6) l
  else l.

(** The variables of the reading loop: the text so far, the component
    state, and whether [sendMessage] has returned. *)
Record Reader : Type := {
  fullText : string;
  ui : State;
  returned : bool;
}.

Definition set_ui (r : Reader) (f : State -> State) : Reader :=
  {| fullText := fullText r; ui := f (ui r); returned := returned r |}.

Definition setMessages (f : list ChatMessage -> list ChatMessage) (s : State)
    : State :=
  {| messages := f (messages s); config := config s;
     userInput := userInput s; streaming := streaming s;
     pending := pending s; activeSessionId := activeSessionId s;
     refreshes := refreshes s |}.

Definition setPending
    (f : option PendingAssistantState -> option PendingAssistantState)
    (s : State) : State :=
  {| messages := messages s; config := config s;
     userInput := userInput s; streaming := streaming s;
     pending := f (pending s); activeSessionId := activeSessionId s;
     refreshes := refreshes s |}.

Definition setStreaming (b : bool) (s : State) : State :=
  {| messages := messages s; config := config s;
     userInput := userInput s; streaming := b;
     pending := pending s; activeSessionId := activeSessionId s;
     refreshes := refreshes s |}.

Definition setUserInput (t : string) (s : State) : State :=
  {| messages := messages s; config := config s;
     userInput := t; streaming := streaming s;
     pending := pending s; activeSessionId := activeSessionId s;
     refreshes := refreshes s |}.

Definition setActiveSessionId (i : option string) (s : State) : State :=
  {| messages := messages s; config := config s;
     userInput := userInput s; streaming := streaming s;
     pending := pending s; activeSessionId := i;
     refreshes := refreshes s |}.

Definition refreshSessions (s : State) : State :=
  {| messages := messages s; config := config s;
     userInput := userInput s; streaming := streaming s;
     pending := pending s; activeSessionId := activeSessionId s;
     refreshes := refreshes s + 1 |}.

(** The body of [for (const line of lines)].  [parse] stands for
    [JSON.parse] followed by the reading of [type] and [data]: it answers
    [None] when [JSON.parse] throws or the value is none of the three
    envelopes.  The state updates are applied in order, at once. *)
Definition on_line (parse : string -> option StreamEnvelope) (l : string)
    (r : Reader) : Reader :=
  if returned r then r
  else if negb (String.prefix "data:" l) then r
  else
    let json := strip_data l in
    if String.eqb json "[DONE]" then
      let commit :=
        setPending (fun _ => None)
        ∘ setStreaming false
        ∘ setPending (fun p => p)
        ∘ refreshSessions
        ∘ setMessages
            (fun m => m ++ [{| role := assistant; content := fullText r |}]) in
      {| fullText := fullText r; ui := commit (ui r); returned := true |}
    else
      match parse json with
      | Some (token d) =>
          let full := fullText r +:+ d in
          {| fullText := full;
             ui := setPending
                     (fun p =>
                        match p with
                        | Some p' =>
                            Some {| text := full; tokens := tokens p' + 1;
                                    elapsedMs := elapsedMs p' |}
                        | None => None
                        end) (ui r);
             returned := false |}
      | Some (meta n ms) =>
          set_ui r
            (setPending
               (fun p =>
                  match p with
                  | Some p' =>
                      Some {| text := text p'; tokens := n;
                              elapsedMs := Some ms |}
                  | None => None
                  end))
      | Some (error d) =>
          set_ui r
            (setMessages
               (fun m => m ++ [{| role := assistant;
                                  content := "[Error: " +:+ d +:+ "]" |}])
             ∘ setStreaming false
             ∘ setPending (fun _ => None))
      | _ => r
      end.

(** The body of the [while] loop for one chunk that was read. *)
Definition on_chunk (parse : string -> option StreamEnvelope) (chunk : string)
    (r : Reader) : Reader :=
  foldl (fun acc l => on_line parse l acc) r
    (List.filter JS.truthy (split chunk)).

(** The loop over the chunks the reader delivers. *)
Definition read_all (parse : string -> option StreamEnvelope)
    (chunks : list string) (r : Reader) : Reader :=
  foldl (fun acc c => on_chunk parse c acc) r chunks.

(** What [sendMessage] reads from its surroundings. *)
Record Env : Type := {
  session : option SessionUser;           (* [useSession()], as on the server *)
  generateUUID : string;                  (* the answer of [generateUUID()] *)
  parse : string -> option StreamEnvelope;
  deliver : list string -> list string;   (* how the written lines arrive *)
  server : ChatRoute.Env;                 (* the clock and the upstream *)
}.

(** The session identifier a message is sent under. *)
Definition sid_of (env : Env) (s : State) : option string :=
  if JS.truthy_opt (activeSessionId s) then activeSessionId s
  else match session env with
       | Some _ => Some (generateUUID env)
       | None => activeSessionId s
       end.

(** The request body: [JSON.stringify] of it on one side and [req.json()]
    on the other are taken to give the same object. *)
Definition request_body (env : Env) (s : State) : ChatRoute.ChatRequestBody :=
  {| ChatRoute.req_messages :=
       Some (messages s ++ [{| role := user; content := userInput s |}]);
     ChatRoute.req_model := Some (model (config s));
     ChatRoute.req_temperature := Some (temperature (config s));
     ChatRoute.req_topP := Some (topP (config s));
     ChatRoute.req_maxTokens := maxTokens (config s);
     ChatRoute.req_sessionId :=
       if JS.truthy_opt (sid_of env s) then sid_of env s else None |}.

(** The request as the chat route sees it. *)
Definition request (env : Env) (s : State) : ChatRoute.Env :=
  {| ChatRoute.json := Some (request_body env s);
     ChatRoute.session := session env;
     ChatRoute.started := ChatRoute.started (server env);
     ChatRoute.finished := ChatRoute.finished (server env);
     ChatRoute.preIso := ChatRoute.preIso (server env);
     ChatRoute.postIso := ChatRoute.postIso (server env);
     ChatRoute.upstream := ChatRoute.upstream (server env) |}.

(** [sendMessage], against the chat route on the world [w]. *)
Definition sendMessage (env : Env) (s : State) (w : World) : State * World :=
  if negb (JS.truthy (JS.trim (userInput s))) || streaming s then (s, w)
  else
    let sid := sid_of env s in
    let s1 :=
      if negb (JS.truthy_opt (activeSessionId s))
      then match session env with
           | Some _ => setActiveSessionId sid s
           | None => s
           end
      else s in
    let newMessages := messages s ++ [{| role := user; content := userInput s |}] in
    let s2 :=
      (setStreaming true
       ∘ setPending (fun _ => Some {| text := ""; tokens := 0; elapsedMs := None |})
       ∘ setUserInput ""
       ∘ setMessages (fun _ => newMessages)) s1 in
    let '(res, w') := ChatRoute.POST (request env s) w in
    match res with
    | event_stream out =>
        let r :=
          read_all (parse env) (deliver env (Wire.written out))
            {| fullText := ""; ui := s2; returned := false |} in
        (ui r, w')
    | _ =>
        ((setMessages
            (fun m => m ++ [{| role := assistant; content := "[Request failed]" |}])
          ∘ setPending (fun _ => None)
          ∘ setStreaming false) s2,
         w')
    end.

(** The title [createSession] computes and posts. *)
Definition createSession_title (s : State) : string :=
  JS.or_default
    (JS.slice0 60 ∘ content <$>
       List.find (fun m => ChatRoute.is_user m && JS.truthy (JS.trim (content m)))
         (messages s))
    "New Chat".

(** The body [createSession] posts to [/api/sessions]. *)
Definition createSession_body (s : State)
    : SessionsRoute.CreateChatSessionRequest :=
  {| SessionsRoute.c_title := Some (createSession_title s);
     SessionsRoute.c_messages := Some (messages s);
     SessionsRoute.c_config :=
       Some {| SessionsRoute.cfg_model := Some (model (config s));
               SessionsRoute.cfg_temperature := Some (temperature (config s));
               SessionsRoute.cfg_topP := Some (topP (config s));
               SessionsRoute.cfg_maxTokens := maxTokens (config s) |} |}.

(** [reset]: only the first message is kept. *)
Definition reset (s : State) : State :=
  (setUserInput "" ∘ setPending (fun _ => None) ∘ setMessages (take 1)) s.

End Client.

(* ===================================================================== *)
(** ** Vocabulary of the statements *)
(* ===================================================================== *)

(** The fragments that are relayed: those whose text is not empty. *)
Definition relayed (frags : list string) : list string :=
  List.filter JS.truthy frags.

(** Concatenation of a list of strings. *)
Definition concat_text (l : list string) : string :=
  foldr String.app "" l.

(** The data of the [token] envelopes of an output, in order. *)
Definition token_data (out : list StreamEnvelope) : list string :=
  omap (fun e => match e with token d => Some d | _ => None end) out.

(** The state of the relay after the given fragments. *)
Definition relay_after (frags : list string) (r : ChatRoute.Relay)
    : ChatRoute.Relay :=
  {| ChatRoute.tokenCount := ChatRoute.tokenCount r + length (relayed frags);
     ChatRoute.finalText :=
       ChatRoute.finalText r +:+ concat_text (relayed frags);
     ChatRoute.controller :=
       {| enqueued :=
            enqueued (ChatRoute.controller r) ++ (token <$> relayed frags);
          closed := closed (ChatRoute.controller r) |} |}.

(** The request the relay hands to the generation service. *)
Definition request_of (mdl : string) (body : ChatRoute.ChatRequestBody)
    (msgs : list ChatMessage) : Gemini.GenerateContentRequest :=
  {| Gemini.g_model := mdl;
     Gemini.g_prompt := Gemini.buildPrompt msgs;
     Gemini.g_temperature := ChatRoute.req_temperature body;
     Gemini.g_topP := ChatRoute.req_topP body;
     Gemini.g_maxOutputTokens := ChatRoute.req_maxTokens body |}.

(** The pre-step of a request, when it has one. *)
Definition pre_step (env : ChatRoute.Env) (body : ChatRoute.ChatRequestBody)
    (msgs : list ChatMessage) (mdl : string) : M unit :=
  match ChatRoute.persisting (ChatRoute.req_sessionId body)
          (ChatRoute.userId_of (ChatRoute.session env)) with
  | Some (sid, uid) =>
      ChatRoute.pre_stream sid uid (ChatRoute.preIso env) msgs mdl body
  | None => mret tt
  end.

(** The world in which the stream starts: after the pre-step and the call
    to the generation service. *)
Definition world_at_start (env : ChatRoute.Env)
    (body : ChatRoute.ChatRequestBody) (msgs : list ChatMessage)
    (mdl : string) (w : World) : World :=
  let w1 := (pre_step env body msgs mdl w).2 in
  {| chats := chats w1;
     calls := calls w1 ++ [upstream_call (request_of mdl body msgs)] |}.

(** The output of [start] on a run that ends normally. *)
Definition completed_output (env : ChatRoute.Env) (frags : list string)
    : Controller :=
  {| enqueued :=
       (token <$> relayed frags) ++
       [meta (length (relayed frags))
          (ChatRoute.finished env - ChatRoute.started env);
        DONE];
     closed := true |}.

(** The output of [start] on a run that fails. *)
Definition failed_output (frags : list string) (msg : string) : Controller :=
  {| enqueued :=
       (token <$> relayed frags) ++
       [error (JS.or_default (Some msg) "stream error")];
     closed := true |}.

(** The number of calls made to the generation service. *)
Definition upstream_calls (l : list Effect) : nat :=
  length
    (List.filter
       (fun e => match e with upstream_call _ => true | _ => false end) l).

(** The documents a user owns. *)
Definition owned_by (uid : string) : Db.Filter :=
  fun d => bool_decide (userId d = Some uid).

(** The title part of the listing filter. *)
Definition matching_title (q : string) : Db.Filter :=
  fun d => if JS.truthy q then SessionsRoute.regex_i q (title d) else true.


(** The page of documents a listing request selects from the collection. *)
Definition listed (uid : string) (query : SessionsRoute.Query)
    (skip limit : Z) (col : list StoredChatSession) : list StoredChatSession :=
  take (Z.to_nat limit)
    (drop (Z.to_nat skip)
       (merge_sort Db.newest_first
          (List.filter
             (SessionsRoute.list_filter uid (SessionsRoute.q_of query)) col))).



(** A message from which the chat route derives a title. *)
Definition titling (m : ChatMessage) : bool :=
  ChatRoute.is_user m && JS.truthy (JS.trim (content m)).

(* ===================================================================== *)
(** ** Sample inputs *)
(* ===================================================================== *)

Module Sample.

Definition alice : SessionUser :=
  {| id := Some "u-alice"; email := Some "alice@example.com" |}.

Definition hello : ChatMessage := {| role := user; content := "Hello" |}.

Definition greeting : list ChatMessage :=
  [{| role := system; content := "You are a helpful teaching assistant." |};
   hello].

Definition body (sid : option string) : ChatRoute.ChatRequestBody :=
  {| ChatRoute.req_messages := Some greeting;
     ChatRoute.req_model := Some "gemini-1.5-pro";
     ChatRoute.req_temperature := Some (7 # 10)%Q;
     ChatRoute.req_topP := Some (9 # 10)%Q;
     ChatRoute.req_maxTokens := Some (256 # 1)%Q;
     ChatRoute.req_sessionId := sid |}.

Definition env (who : option SessionUser) (sid : option string)
    (up : Gemini.Upstream) : ChatRoute.Env :=
  {| ChatRoute.json := Some (body sid);
     ChatRoute.session := who;
     ChatRoute.started := 1000;
     ChatRoute.finished := 1040;
     ChatRoute.preIso := "2025-03-01T10:00:00.000Z";
     ChatRoute.postIso := "2025-03-01T10:00:01.000Z";
     ChatRoute.upstream := up |}.

(** A body whose [messages] field is not an array. *)
Definition bad_body : ChatRoute.ChatRequestBody :=
  {| ChatRoute.req_messages := None;
     ChatRoute.req_model := Some "gemini-1.5-pro";
     ChatRoute.req_temperature := None;
     ChatRoute.req_topP := None;
     ChatRoute.req_maxTokens := None;
     ChatRoute.req_sessionId := Some "S1" |}.

Definition bad_env : ChatRoute.Env :=
  {| ChatRoute.json := Some bad_body;
     ChatRoute.session := Some alice;
     ChatRoute.started := 1000;
     ChatRoute.finished := 1040;
     ChatRoute.preIso := "2025-03-01T10:00:00.000Z";
     ChatRoute.postIso := "2025-03-01T10:00:01.000Z";
     ChatRoute.upstream := Gemini.Opens (Gemini.yields ["Hel"; "lo"]) |}.

Definition session_of (sid owner ttl updated : string)
    (msgs : list ChatMessage) : StoredChatSession :=
  {| sessionId := sid; title := ttl; messages := msgs;
     model := "gemini-1.5-pro";
     temperature := Some (7 # 10)%Q; topP := Some (9 # 10)%Q;
     maxTokens := None; userId := Some owner;
     createdAt := "2025-02-01T08:00:00.000Z"; updatedAt := updated |}.

Definition empty : World := {| chats := []; calls := [] |}.

(** Two sessions of Alice and one of Bob; Alice's [S1] ends with the user
    message [hello]. *)
Definition world : World :=
  {| chats :=
       [session_of "S1" "u-alice" "Hello" "2025-02-01T08:00:00.000Z" greeting;
        session_of "S2" "u-bob" "Bob's notes" "2025-02-03T08:00:00.000Z" [];
        session_of "S3" "u-alice" "Trip plan" "2025-02-02T08:00:00.000Z" []];
     calls := [] |}.

(** A listing request whose page size is not a number. *)
Definition query_abc : SessionsRoute.Query :=
  {| SessionsRoute.q_page := None;
     SessionsRoute.q_pageSize := Some "abc";
     SessionsRoute.q_q := None;
     SessionsRoute.q_id := None |}.

(** A transcript whose first user message is empty. *)
Definition blank_then_question : list ChatMessage :=
  [{| role := user; content := "" |};
   {| role := user; content := "Plan a trip" |}].

(** A transcript whose first user message is white space. *)
Definition spaces_then_question : list ChatMessage :=
  [{| role := user; content := "   " |};
   {| role := user; content := "Plan a trip" |}].

Definition create_request (msgs : list ChatMessage)
    : SessionsRoute.CreateChatSessionRequest :=
  {| SessionsRoute.c_title := None;
     SessionsRoute.c_messages := Some msgs;
     SessionsRoute.c_config :=
       Some {| SessionsRoute.cfg_model := Some "gemini-1.5-pro";
               SessionsRoute.cfg_temperature := Some (7 # 10)%Q;
               SessionsRoute.cfg_topP := Some (9 # 10)%Q;
               SessionsRoute.cfg_maxTokens := None |} |}.

End Sample.

(** The pair that identifies a document: its session identifier and its
    owner. *)
Definition key_of (d : StoredChatSession) : string * option string :=
  (sessionId d, userId d).

(** No two documents have the same session identifier and owner. *)
Definition unique_keys (col : list StoredChatSession) : Prop :=
  NoDup (key_of <$> col).

(** The calls made to the store. *)
Definition store_calls (l : list Effect) : list Effect :=
  List.filter
    (fun e => match e with upstream_call _ => false | _ => true end) l.

(** The requests made to the generation service, oldest first. *)
Definition upstream_requests (l : list Effect)
    : list Gemini.GenerateContentRequest :=
  omap (fun e => match e with upstream_call r => Some r | _ => None end) l.

(** The documents other than those a filter selects. *)
Definition other_than (f : Db.Filter) : Db.Filter := fun d => negb (f d).



(** The prompt line of one message. *)
Definition prompt_line (m : ChatMessage) : string :=
  Gemini.toUpperCase (role m) +:+ ": " +:+ content m.



(** A session user that carries an id or an e-mail address. *)
Definition identified (u : SessionUser) : Prop :=
  JS.truthy_opt (id u) = true \/ JS.truthy_opt (email u) = true.

Module Sample2.

Definition only_id (i : string) : SessionsRoute.Query :=
  {| SessionsRoute.q_page := None;
     SessionsRoute.q_pageSize := None;
     SessionsRoute.q_q := None;
     SessionsRoute.q_id := Some i |}.


Definition rename (sid ttl : string) : SessionsRoute.PatchBody :=
  {| SessionsRoute.u_sessionId := Some sid;
     SessionsRoute.u_title := Some ttl;
     SessionsRoute.u_messages := None;
     SessionsRoute.u_model := None;
     SessionsRoute.u_temperature := None;
     SessionsRoute.u_topP := None;
     SessionsRoute.u_maxTokens := None |}.


End Sample2.

Module Sample3.

(** A [bcrypt.hash] and [bcrypt.compare] pair for the examples: the hash
    is the password behind a fixed prefix. *)
Definition hash (pw : string) : string := "$2a$10$" +:+ pw.

Definition compare (pw hashed : string) : bool := String.eqb (hash pw) hashed.

Definition env : Accounts.RegisterEnv :=
  {| Accounts.uuid := "7c9e6679-7425-40de-944b-e07fc1f90ae7";
     Accounts.now := "2025-03-01T09:00:00.000Z";
     Accounts.bcrypt_hash := hash |}.

Definition signup : Accounts.RegisterBody :=
  {| Accounts.r_email := Some " User@Example.com ";
     Accounts.r_password := Some "secret1" |}.

Definition login (e pw : string) : option Accounts.Credentials :=
  Some {| Accounts.c_email := Some e; Accounts.c_password := Some pw |}.

End Sample3.

(** Whether a string holds a line feed. *)
Fixpoint has_newline (s : string) : bool :=
  match s with
  | "" => false
  | String c s' => Ascii.eqb c "010" || has_newline s'
  end.

(** The line of an envelope without its line feed. *)
Definition data_line (e : StreamEnvelope) : string :=
  "data: " +:+ Wire.payload e.

(** [parse] reads the payload of an envelope back. *)
Definition reads (parse : string -> option StreamEnvelope)
    (e : StreamEnvelope) : Prop :=
  parse (Wire.payload e) = Some e.

(** The written lines arrive whole: every chunk that is delivered is a run
    of consecutive lines. *)
Definition aligned (deliver : list string -> list string)
    (lines : list string) : Prop :=
  exists groups : list (list string),
    concat groups = lines /\ deliver lines = concat_text <$> groups.

(** The component state with the pending reply cleared. *)
Definition settled (s : Client.State) : Client.State :=
  Client.setPending (fun _ => None) s.

(** The reading loop, envelope by envelope: what the client does with the
    line of an envelope. *)
Definition read_envelope (parse : string -> option StreamEnvelope)
    (r : Client.Reader) (e : StreamEnvelope) : Client.Reader :=
  Client.on_line parse (data_line e) r.

(* ===================================================================== *)
(** * Properties *)
(* ===================================================================== *)

(** ** Running the monad *)

Ltac run :=
  unfold Db.findOne, Db.insertOne, Db.updateOne, Db.deleteOne,
    Db.countDocuments, Db.find_sorted_page, ChatRoute.streamGemini,
    called, read_chats, write_chats, mbind, M_bind, mret, M_ret in *;
  cbn [fst snd chats calls] in *.

(** ** The relay loop *)

Section RelayLoop.
Import ChatRoute.

Lemma string_app_assoc (a b c : string) : (a +:+ b) +:+ c = a +:+ (b +:+ c).
Proof.
  induction a as [|x a IH]; [done|].
  change (String x ((a +:+ b) +:+ c) = String x (a +:+ (b +:+ c))).
  by rewrite IH.
Qed.

Lemma string_app_empty_r (a : string) : a +:+ "" = a.
Proof.
  induction a as [|x a IH]; [done|].
  change (String x (a +:+ "") = String x a).
  by rewrite IH.
Qed.

Lemma relay_after_nil r : relay_after [] r = r.
Proof.
  destruct r as [n t [q c]]. unfold relay_after, relayed. simpl.
  by rewrite Nat.add_0_r, string_app_empty_r, app_nil_r.
Qed.

Lemma relay_after_cons text frags r :
  relay_after frags (on_chunk text r) = relay_after (text :: frags) r.
Proof.
  unfold relay_after, relayed, on_chunk. simpl.
  destruct (JS.truthy text); [|done]. simpl.
  rewrite string_app_assoc, <- app_assoc. simpl.
  f_equal. lia.
Qed.

Lemma for_await_yields frags r :
  for_await (Gemini.yields frags) r = (relay_after frags r, completed).
Proof.
  revert r. induction frags as [|text frags IH]; intros r; simpl.
  - by rewrite relay_after_nil.
  - by rewrite IH, relay_after_cons.
Qed.

Lemma for_await_yields_then_throws frags msg r :
  for_await (Gemini.yields_then_throws frags msg) r
  = (relay_after frags r, thrown msg).
Proof.
  revert r. induction frags as [|text frags IH]; intros r; simpl.
  - by rewrite relay_after_nil.
  - by rewrite IH, relay_after_cons.
Qed.

(** Every upstream run has one of the two shapes. *)
Lemma stream_shape (s : Gemini.ChunkStream) :
  (exists frags, s = Gemini.yields frags) \/
  (exists frags msg, s = Gemini.yields_then_throws frags msg).
Proof.
  induction s as [|text rest IH|msg].
  - left. by exists [].
  - destruct IH as [[frags ->]|(frags & msg & ->)].
    + left. by exists (text :: frags).
    + right. by exists (text :: frags), msg.
  - right. by exists [], msg.
Qed.

Lemma token_data_tokens (l : list string) : token_data (token <$> l) = l.
Proof.
  induction l as [|x l IH]; [done|].
  change (x :: token_data (token <$> l) = x :: l). by rewrite IH.
Qed.

Lemma token_data_app (a b : list StreamEnvelope) :
  token_data (a ++ b) = token_data a ++ token_data b.
Proof. unfold token_data. apply omap_app. Qed.

End RelayLoop.

(** ** The chat route, step by step *)

Section ChatSteps.
Import ChatRoute.

Lemma POST_accepted env body msgs mdl w :
  json env = Some body ->
  req_messages body = Some msgs ->
  req_model body = Some mdl ->
  JS.truthy mdl = true ->
  POST env w =
    match upstream env with
    | Gemini.Rejects msg =>
        (text_response 500
           ("Upstream error: " +:+ JS.or_default (Some msg) "unknown error"),
         world_at_start env body msgs mdl w)
    | Gemini.Opens s =>
        let '(out, w') :=
          start env (req_sessionId body) (userId_of (session env)) s
            (world_at_start env body msgs mdl w) in
        (event_stream out, w')
    end.
Proof.
  intros Hj Hm Hmdl Ht. unfold POST, world_at_start, pre_step.
  rewrite Hj, Hm, Hmdl, Ht. run.
  destruct (persisting _ _) as [[sid uid]|];
    [destruct (pre_stream _ _ _ _ _ _ w) as [[] w1]|];
    simpl; destruct (upstream env); done.
Qed.

Lemma finalText_relay_after frags :
  finalText (relay_after frags relay0) = concat_text (relayed frags).
Proof. done. Qed.

Lemma start_yields env sid uid frags w :
  start env sid uid (Gemini.yields frags) w =
    (completed_output env frags,
     (match persisting sid uid with
      | Some (sid', uid') =>
          post_stream sid' uid' (postIso env) (concat_text (relayed frags))
      | None => mret tt
      end w).2).
Proof.
  unfold start. rewrite for_await_yields, finalText_relay_after.
  destruct (persisting sid uid) as [[sid' uid']|];
    unfold mbind, M_bind, mret, M_ret;
    [destruct (post_stream _ _ _ _ w) as [[] w']|];
    unfold completed_output, close, enqueue; simpl;
    by rewrite <- app_assoc.
Qed.

Lemma start_yields_then_throws env sid uid frags msg w :
  start env sid uid (Gemini.yields_then_throws frags msg) w =
    (failed_output frags msg, w).
Proof.
  unfold start. rewrite for_await_yields_then_throws. run. done.
Qed.

End ChatSteps.

(** ** The collection *)

Section Collection.
Implicit Types (f g : Db.Filter) (col : list StoredChatSession).
Implicit Types (u : StoredChatSession -> StoredChatSession).

Lemma by_session_and_user_owned sid uid d :
  Db.by_session_and_user sid uid d = true -> owned_by uid d = true.
Proof. unfold Db.by_session_and_user, owned_by. by intros [_ ?]%andb_prop. Qed.

Lemma by_session_and_user_spec sid uid d :
  Db.by_session_and_user sid uid d = true <->
  sessionId d = sid /\ userId d = Some uid.
Proof.
  unfold Db.by_session_and_user.
  rewrite andb_true_iff, String.eqb_eq, bool_decide_eq_true. done.
Qed.

Lemma find_update_first f u col :
  (forall d, f (u d) = f d) ->
  List.find f (Db.update_first f u col) = u <$> List.find f col.
Proof.
  intros Hu. induction col as [|d col IH]; simpl; [done|].
  destruct (f d) eqn:Hd; simpl.
  - by rewrite Hu, Hd.
  - by rewrite Hd.
Qed.

Lemma update_first_no_match f u col :
  List.find f col = None -> Db.update_first f u col = col.
Proof.
  induction col as [|d col IH]; simpl; [done|].
  destruct (f d); [done|]. intros H. by rewrite IH.
Qed.

Lemma update_first_twice f u1 u2 col :
  (forall d, f (u1 d) = f d) ->
  Db.update_first f u2 (Db.update_first f u1 col)
  = Db.update_first f (u2 ∘ u1) col.
Proof.
  intros Hu. induction col as [|d col IH]; simpl; [done|].
  destruct (f d) eqn:Hd; simpl.
  - by rewrite Hu, Hd.
  - by rewrite Hd, IH.
Qed.

Lemma update_first_found f u col d :
  List.find f col = Some d ->
  Db.update_first f u col = Db.update_first f (fun _ => u d) col.
Proof.
  induction col as [|x col IH]; simpl; [done|].
  destruct (f x); [by intros [= ->]|]. intros H. by rewrite IH.
Qed.

Lemma delete_first_no_match f col :
  List.find f col = None -> Db.delete_first f col = col.
Proof.
  induction col as [|d col IH]; simpl; [done|].
  destruct (f d); [done|]. intros H. by rewrite IH.
Qed.

(** Removing a document that [g] rejects does not change what [g] keeps. *)
Lemma filter_delete_first f g col :
  (forall d, f d = true -> g d = false) ->
  List.filter g (Db.delete_first f col) = List.filter g col.
Proof.
  intros Hfg. induction col as [|d col IH]; simpl; [done|].
  destruct (f d) eqn:Hd; simpl.
  - by rewrite (Hfg d Hd).
  - by rewrite IH.
Qed.

(** Updating a document that [g] rejects, to one it still rejects, does
    not change what [g] keeps. *)
Lemma filter_update_first f g u col :
  (forall d, f d = true -> g d = false /\ g (u d) = false) ->
  List.filter g (Db.update_first f u col) = List.filter g col.
Proof.
  intros Hfg. induction col as [|d col IH]; simpl; [done|].
  destruct (f d) eqn:Hd; simpl.
  - destruct (Hfg d Hd) as [-> ->]. done.
  - by rewrite IH.
Qed.

Lemma find_some_elem f col d :
  List.find f col = Some d -> d ∈ col /\ f d = true.
Proof.
  intros H. apply find_some in H as [H1 H2]. split; [|done].
  by apply list_elem_of_In.
Qed.

(** The first match of a filter is found among the documents of the user
    the filter names. *)
Lemma find_in_owned sid uid col :
  List.find (Db.by_session_and_user sid uid) col
  = List.find (Db.by_session_and_user sid uid) (List.filter (owned_by uid) col).
Proof.
  induction col as [|d col IH]; simpl; [done|].
  destruct (Db.by_session_and_user sid uid d) eqn:Hd.
  - rewrite (by_session_and_user_owned _ _ _ Hd). simpl. by rewrite Hd.
  - destruct (owned_by uid d); simpl; [by rewrite Hd|done].
Qed.

End Collection.

(** ** The pre-step and the post-step *)

Section Reconciler.
Import ChatRoute.

Lemma refresh_push_keeps_key sid uid now mdl body m d :
  Db.by_session_and_user sid uid ((refresh now mdl body ∘ Db.push_message m) d)
  = Db.by_session_and_user sid uid d.
Proof. done. Qed.

Lemma pre_stream_existing sid uid now msgs mdl body w d :
  List.find (Db.by_session_and_user sid uid) (chats w) = Some d ->
  chats (pre_stream sid uid now msgs mdl body w).2 =
    match lastUser msgs with
    | Some m =>
        Db.update_first (Db.by_session_and_user sid uid)
          (refresh now mdl body ∘ Db.push_message m) (chats w)
    | None => chats w
    end.
Proof.
  intros Hd. unfold pre_stream. run. rewrite Hd.
  by destruct (lastUser msgs).
Qed.

Lemma pre_stream_upstream_calls sid uid now msgs mdl body w :
  upstream_calls (calls (pre_stream sid uid now msgs mdl body w).2)
  = upstream_calls (calls w).
Proof.
  unfold pre_stream, upstream_calls. run.
  destruct (List.find _ (chats w)); [destruct (lastUser msgs)|];
    simpl; rewrite ?List.filter_app, ?length_app; simpl; lia.
Qed.

Lemma post_stream_chats sid uid now text w :
  chats (post_stream sid uid now text w).2 =
    Db.update_first (Db.by_session_and_user sid uid)
      (fun d =>
         {| sessionId := sessionId d; title := title d;
            messages := messages d ++ [{| role := assistant; content := text |}];
            model := model d; temperature := temperature d; topP := topP d;
            maxTokens := maxTokens d; userId := userId d;
            createdAt := createdAt d; updatedAt := now |})
      (chats w).
Proof. done. Qed.

Lemma post_stream_upstream_calls sid uid now text w :
  upstream_calls (calls (post_stream sid uid now text w).2)
  = upstream_calls (calls w).
Proof.
  unfold post_stream, upstream_calls. run.
  rewrite List.filter_app, length_app. simpl. lia.
Qed.

End Reconciler.

(** * The relay *)

Section RelayClaims.
Import ChatRoute.

(** C1, amended.  When the request is valid and the upstream service
    yields the fragments [frags] and then completes, the relay's output
    is: the fragments whose text is not empty, in order, as [token]
    envelopes; then one [meta] envelope whose count is the number of
    [token] envelopes emitted and whose time is the clock difference; then
    [DONE]; and the output is closed. *)
Theorem relay_normal_completion env body msgs mdl frags w :
  json env = Some body ->
  req_messages body = Some msgs ->
  req_model body = Some mdl ->
  JS.truthy mdl = true ->
  upstream env = Gemini.Opens (Gemini.yields frags) ->
  let sent := List.filter JS.truthy frags in
  let out :=
    {| enqueued :=
         (token <$> sent) ++
         [meta (length sent) (finished env - started env); DONE];
       closed := true |} in
  (POST env w).1 = event_stream out /\
  length (token_data (enqueued out)) = length sent.
Proof.
  intros Hj Hm Hmdl Ht Hup. cbn zeta. split.
  - rewrite (POST_accepted _ _ _ _ _ Hj Hm Hmdl Ht), Hup.
    rewrite start_yields. done.
  - simpl. by rewrite token_data_app, token_data_tokens, app_nil_r.
Qed.

Lemma relay_normal_completion_witness :
  (POST (Sample.env None None (Gemini.Opens (Gemini.yields ["Hel"; "lo"])))
     Sample.empty).1
  = event_stream
      {| enqueued := [token "Hel"; token "lo"; meta 2 40; DONE];
         closed := true |}.
Proof.
  exact (proj1 (relay_normal_completion
                  (Sample.env None None (Gemini.Opens (Gemini.yields ["Hel"; "lo"])))
                  (Sample.body None) Sample.greeting "gemini-1.5-pro"
                  ["Hel"; "lo"] Sample.empty
                  eq_refl eq_refl eq_refl eq_refl eq_refl)).
Defined.

(** C1 as stated fails: a fragment with empty text is not relayed, so
    three fragments give two [token] envelopes and a count of 2. *)
Lemma relay_skips_empty_fragment :
  let env := Sample.env None None (Gemini.Opens (Gemini.yields ["Hel"; ""; "lo"])) in
  (POST env Sample.empty).1
  = event_stream
      {| enqueued := [token "Hel"; token "lo"; meta 2 40; DONE];
         closed := true |} /\
  forall n ms,
    (POST env Sample.empty).1
    <> event_stream
         {| enqueued := (token <$> ["Hel"; ""; "lo"]) ++ [meta n ms; DONE];
            closed := true |}.
Proof.
  split; [reflexivity|]. intros n ms H. vm_compute in H. discriminate H.
Qed.

(** C2, amended.  When the request is valid and the upstream service
    fails with message [msg] after yielding the fragments [frags], the
    relay's output is: the fragments whose text is not empty, in order,
    as [token] envelopes; then one [error] envelope carrying [msg], or
    the text [stream error] when [msg] is empty; the output is closed
    and holds no [meta] envelope and no [DONE]; the generation service
    was called once. *)
Theorem relay_upstream_failure env body msgs mdl frags msg w :
  json env = Some body ->
  req_messages body = Some msgs ->
  req_model body = Some mdl ->
  JS.truthy mdl = true ->
  upstream env = Gemini.Opens (Gemini.yields_then_throws frags msg) ->
  let out :=
    {| enqueued :=
         (token <$> List.filter JS.truthy frags) ++
         [error (if JS.truthy msg then msg else "stream error")];
       closed := true |} in
  (POST env w).1 = event_stream out /\
  (forall e, e ∈ enqueued out -> e <> DONE /\ forall n ms, e <> meta n ms) /\
  upstream_calls (calls (POST env w).2) = upstream_calls (calls w) + 1.
Proof.
  intros Hj Hm Hmdl Ht Hup. cbn zeta.
  rewrite (POST_accepted _ _ _ _ _ Hj Hm Hmdl Ht), Hup.
  rewrite start_yields_then_throws. simpl. split; [done|]. split.
  - intros e [He|He]%elem_of_app.
    + apply list_elem_of_fmap in He as (t & -> & _). done.
    + apply list_elem_of_singleton in He as ->. done.
  - unfold world_at_start, pre_step, upstream_calls. simpl.
    rewrite List.filter_app, length_app. simpl. f_equal.
    destruct (persisting _ _) as [[sid uid]|]; [|done].
    apply pre_stream_upstream_calls.
Qed.

Lemma relay_upstream_failure_witness :
  (POST (Sample.env None None
           (Gemini.Opens (Gemini.yields_then_throws ["par"; "tial"] "quota exceeded")))
     Sample.empty).1
  = event_stream
      {| enqueued := [token "par"; token "tial"; error "quota exceeded"];
         closed := true |}.
Proof.
  exact (proj1 (relay_upstream_failure
                  (Sample.env None None
                     (Gemini.Opens
                        (Gemini.yields_then_throws ["par"; "tial"] "quota exceeded")))
                  (Sample.body None) Sample.greeting "gemini-1.5-pro"
                  ["par"; "tial"] "quota exceeded" Sample.empty
                  eq_refl eq_refl eq_refl eq_refl eq_refl)).
Defined.

(** C2 as stated fails: a fragment with empty text is not relayed, and a
    failure whose message is empty is reported as [stream error]. *)
Lemma relay_failure_skips_and_defaults :
  let env :=
    Sample.env None None
      (Gemini.Opens (Gemini.yields_then_throws ["par"; ""; "tial"] "")) in
  (POST env Sample.empty).1
  = event_stream
      {| enqueued := [token "par"; token "tial"; error "stream error"];
         closed := true |} /\
  (POST env Sample.empty).1
  <> event_stream
       {| enqueued := (token <$> ["par"; ""; "tial"]) ++ [error ""];
          closed := true |}.
Proof.
  split; [reflexivity|]. intros H. vm_compute in H. discriminate H.
Qed.

(** C5.  A request whose [messages] field is not an array, or whose
    [model] field is absent, is answered 400 at once: the answer is a
    plain text response and not a stream, and the world is as before, so
    neither the generation service nor the store was called. *)
Theorem invalid_request_rejected env body w :
  json env = Some body ->
  req_messages body = None \/ req_model body = None ->
  POST env w = (text_response 400 "Missing required fields", w) /\
  status_of (POST env w).1 = 400%Z /\
  calls (POST env w).2 = calls w /\
  chats (POST env w).2 = chats w /\
  (forall out, (POST env w).1 <> event_stream out).
Proof.
  intros Hj H.
  assert (POST env w = (text_response 400 "Missing required fields", w)) as ->.
  { unfold POST. rewrite Hj.
    destruct H as [-> | ->]; [done|]. by destruct (req_messages body). }
  done.
Qed.

Lemma invalid_request_rejected_witness :
  POST Sample.bad_env Sample.world
  = (text_response 400 "Missing required fields", Sample.world).
Proof.
  refine (proj1 (invalid_request_rejected Sample.bad_env Sample.bad_body
                   Sample.world eq_refl _)).
  left. reflexivity.
Defined.

End RelayClaims.

(** * The transcript *)

Section TranscriptClaims.
Import ChatRoute.

Lemma lastUser_snoc msgs x :
  lastUser (msgs ++ [x]) = if is_user x then Some x else lastUser msgs.
Proof. unfold lastUser. by rewrite rev_unit. Qed.

(** [lastUser] is the user message after which no user message comes. *)
Lemma lastUser_spec msgs m :
  lastUser msgs = Some m <->
  exists before after,
    msgs = before ++ m :: after /\ is_user m = true /\
    Forall (fun x => is_user x = false) after.
Proof.
  induction msgs as [|x msgs IH] using rev_ind.
  - split; [done|]. intros (before & after & H & _). by destruct before.
  - rewrite lastUser_snoc. destruct (is_user x) eqn:Hx.
    + split.
      * intros [= ->]. exists msgs, []. done.
      * intros (before & after & H & Hm & Hafter).
        destruct after as [|y after _] using rev_ind.
        -- apply app_inj_tail in H as [_ ->]. done.
        -- rewrite app_comm_cons, app_assoc in H.
           apply app_inj_tail in H as [_ ->].
           apply Forall_app in Hafter as [_ Hy].
           rewrite Forall_singleton in Hy. congruence.
    + rewrite IH. split.
      * intros (before & after & -> & Hm & Hafter).
        exists before, (after ++ [x]). split; [by rewrite <- app_assoc|].
        split; [done|]. apply Forall_app. split; [done|]. by apply Forall_singleton.
      * intros (before & after & H & Hm & Hafter).
        destruct after as [|y after _] using rev_ind.
        -- apply app_inj_tail in H as [_ ->]. congruence.
        -- rewrite app_comm_cons, app_assoc in H.
           apply app_inj_tail in H as [-> _].
           apply Forall_app in Hafter as [Hafter _].
           by exists before, after.
Qed.

(** The stored transcript of a session after a completed turn. *)
Lemma completed_turn_chats env body msgs mdl sid uid frags w :
  json env = Some body ->
  req_messages body = Some msgs ->
  req_model body = Some mdl ->
  JS.truthy mdl = true ->
  persisting (req_sessionId body) (userId_of (session env)) = Some (sid, uid) ->
  upstream env = Gemini.Opens (Gemini.yields frags) ->
  chats (POST env w).2 =
    chats (post_stream sid uid (postIso env) (concat_text (relayed frags))
             (pre_stream sid uid (preIso env) msgs mdl body w).2).2.
Proof.
  intros Hj Hm Hmdl Ht Hp Hup.
  rewrite (POST_accepted _ _ _ _ _ Hj Hm Hmdl Ht), Hup, start_yields, Hp.
  cbn [snd]. rewrite !post_stream_chats. unfold world_at_start, pre_step.
  by rewrite Hp.
Qed.

(** C3, amended.  For an authenticated request that names an existing
    session, the pre-step appends the most recent user-role message of the
    supplied sequence to the stored messages, whether or not it is already
    the last stored message: run twice it appends the message twice.  A
    completed turn appends exactly that user message and then exactly one
    assistant message. *)
Theorem turn_appends_user_then_assistant env body msgs mdl sid uid m d frags w :
  json env = Some body ->
  req_messages body = Some msgs ->
  req_model body = Some mdl ->
  JS.truthy mdl = true ->
  persisting (req_sessionId body) (userId_of (session env)) = Some (sid, uid) ->
  List.find (Db.by_session_and_user sid uid) (chats w) = Some d ->
  lastUser msgs = Some m ->
  upstream env = Gemini.Opens (Gemini.yields frags) ->
  let key := Db.by_session_and_user sid uid in
  let once := (pre_stream sid uid (preIso env) msgs mdl body w).2 in
  let twice := (pre_stream sid uid (preIso env) msgs mdl body once).2 in
  messages <$> List.find key (chats once) = Some (messages d ++ [m]) /\
  messages <$> List.find key (chats twice) = Some (messages d ++ [m; m]) /\
  messages <$> List.find key (chats (POST env w).2)
  = Some (messages d ++
          [m; {| role := assistant;
                 content := concat_text (List.filter JS.truthy frags) |}]).
Proof.
  intros Hj Hm Hmdl Ht Hp Hd Hlast Hup. cbn zeta.
  assert (List.find (Db.by_session_and_user sid uid)
            (chats (pre_stream sid uid (preIso env) msgs mdl body w).2)
          = Some ((refresh (preIso env) mdl body ∘ Db.push_message m) d)) as Honce.
  { rewrite (pre_stream_existing _ _ _ _ _ _ _ _ Hd), Hlast.
    rewrite find_update_first by done. by rewrite Hd. }
  split; [by rewrite Honce|]. split.
  - rewrite (pre_stream_existing _ _ _ _ _ _ _ _ Honce), Hlast.
    rewrite find_update_first by done. rewrite Honce. simpl.
    by rewrite <- app_assoc.
  - rewrite (completed_turn_chats _ _ _ _ _ _ _ _ Hj Hm Hmdl Ht Hp Hup).
    rewrite post_stream_chats, find_update_first by done.
    rewrite Honce. simpl. by rewrite <- app_assoc.
Qed.

Lemma turn_appends_user_then_assistant_witness :
  messages <$>
    List.find (Db.by_session_and_user "S1" "u-alice")
      (chats (POST (Sample.env (Some Sample.alice) (Some "S1")
                      (Gemini.Opens (Gemini.yields ["Hi "; "there"])))
                Sample.world).2)
  = Some (Sample.greeting ++
          [Sample.hello; {| role := assistant; content := "Hi there" |}]).
Proof.
  exact (proj2 (proj2
    (turn_appends_user_then_assistant
       (Sample.env (Some Sample.alice) (Some "S1")
          (Gemini.Opens (Gemini.yields ["Hi "; "there"])))
       (Sample.body (Some "S1")) Sample.greeting "gemini-1.5-pro"
       "S1" "u-alice" Sample.hello
       (Sample.session_of "S1" "u-alice" "Hello" "2025-02-01T08:00:00.000Z"
          Sample.greeting)
       ["Hi "; "there"] Sample.world
       eq_refl eq_refl eq_refl eq_refl eq_refl eq_refl eq_refl eq_refl))).
Defined.

(** C3 as stated fails: the stored transcript of [S1] already ends with the
    latest user message of the request, and the pre-step appends it again. *)
Lemma pre_step_appends_message_already_last :
  let key := Db.by_session_and_user "S1" "u-alice" in
  let after :=
    (pre_stream "S1" "u-alice" "2025-03-01T10:00:00.000Z" Sample.greeting
       "gemini-1.5-pro" (Sample.body (Some "S1")) Sample.world).2 in
  lastUser Sample.greeting = Some Sample.hello /\
  messages <$> List.find key (chats Sample.world) = Some Sample.greeting /\
  list.last Sample.greeting = Some Sample.hello /\
  messages <$> List.find key (chats after)
  = Some (Sample.greeting ++ [Sample.hello]) /\
  messages <$> List.find key (chats after)
  <> messages <$> List.find key (chats Sample.world).
Proof.
  cbn zeta. repeat (split; [reflexivity|]).
  intros H. vm_compute in H. discriminate H.
Qed.

(** C10.  After a completed authenticated run against an existing session,
    the stored transcript is the one stored before, then the latest user
    message of the request (if it has one), then one assistant message
    whose content is the concatenation, in order, of the data of the
    [token] envelopes that were emitted; these are the upstream fragments
    whose text is not empty. *)
Theorem stored_reply_is_streamed_text env body msgs mdl sid uid d frags w :
  json env = Some body ->
  req_messages body = Some msgs ->
  req_model body = Some mdl ->
  JS.truthy mdl = true ->
  persisting (req_sessionId body) (userId_of (session env)) = Some (sid, uid) ->
  List.find (Db.by_session_and_user sid uid) (chats w) = Some d ->
  upstream env = Gemini.Opens (Gemini.yields frags) ->
  exists out,
    (POST env w).1 = event_stream out /\
    token_data (enqueued out) = List.filter JS.truthy frags /\
    messages <$> List.find (Db.by_session_and_user sid uid) (chats (POST env w).2)
    = Some ((messages d ++ option_list (lastUser msgs)) ++
            [{| role := assistant;
                content := concat_text (token_data (enqueued out)) |}]).
Proof.
  intros Hj Hm Hmdl Ht Hp Hd Hup.
  exists (completed_output env frags). split; [|split].
  - by rewrite (POST_accepted _ _ _ _ _ Hj Hm Hmdl Ht), Hup, start_yields.
  - simpl. by rewrite token_data_app, token_data_tokens, app_nil_r.
  - simpl. rewrite token_data_app, token_data_tokens, app_nil_r.
    rewrite (completed_turn_chats _ _ _ _ _ _ _ _ Hj Hm Hmdl Ht Hp Hup).
    rewrite post_stream_chats, find_update_first by done.
    rewrite (pre_stream_existing _ _ _ _ _ _ _ _ Hd).
    destruct (lastUser msgs) as [m|].
    + rewrite find_update_first by done. rewrite Hd. done.
    + rewrite Hd. simpl. by rewrite app_nil_r.
Qed.

Lemma stored_reply_is_streamed_text_witness :
  exists out,
    (POST (Sample.env (Some Sample.alice) (Some "S1")
             (Gemini.Opens (Gemini.yields ["Hi "; ""; "there"])))
       Sample.world).1 = event_stream out /\
    token_data (enqueued out) = ["Hi "; "there"] /\
    messages <$>
      List.find (Db.by_session_and_user "S1" "u-alice")
        (chats (POST (Sample.env (Some Sample.alice) (Some "S1")
                        (Gemini.Opens (Gemini.yields ["Hi "; ""; "there"])))
                  Sample.world).2)
    = Some ((Sample.greeting ++ [Sample.hello]) ++
            [{| role := assistant;
                content := concat_text (token_data (enqueued out)) |}]).
Proof.
  exact (stored_reply_is_streamed_text
           (Sample.env (Some Sample.alice) (Some "S1")
              (Gemini.Opens (Gemini.yields ["Hi "; ""; "there"])))
           (Sample.body (Some "S1")) Sample.greeting "gemini-1.5-pro"
           "S1" "u-alice"
           (Sample.session_of "S1" "u-alice" "Hello" "2025-02-01T08:00:00.000Z"
              Sample.greeting)
           ["Hi "; ""; "there"] Sample.world
           eq_refl eq_refl eq_refl eq_refl eq_refl eq_refl eq_refl).
Defined.

End TranscriptClaims.

(** * Deleting and updating sessions *)

Section SessionWrites.
Import SessionsRoute.

(** C7.  An authenticated delete request that names a session is answered
    204, and so is the same request repeated; the documents of other
    owners are the same, in the same order, after each of them; and when
    no document of the caller has that identifier, because it does not
    exist or belongs to someone else, the collection is left as it was. *)
Theorem delete_is_idempotent_and_owner_scoped u query i w :
  q_id query = Some i ->
  JS.truthy i = true ->
  let me := userId_of u "__" in
  let others := fun d => negb (owned_by me d) in
  let first := DELETE (Some u) query w in
  let second := DELETE (Some u) query first.2 in
  first.1 = empty_response 204 /\
  second.1 = empty_response 204 /\
  List.filter others (chats first.2) = List.filter others (chats w) /\
  List.filter others (chats second.2) = List.filter others (chats w) /\
  (List.find (Db.by_session_and_user i me) (chats w) = None ->
   chats first.2 = chats w /\ chats second.2 = chats w).
Proof.
  intros Hi Ht. cbn zeta. unfold DELETE. rewrite Hi, Ht. run.
  assert (forall col,
            List.filter (fun d => negb (owned_by (userId_of u "__") d))
              (Db.delete_first (Db.by_session_and_user i (userId_of u "__")) col)
            = List.filter (fun d => negb (owned_by (userId_of u "__") d)) col)
    as Hothers.
  { intros col. apply filter_delete_first.
    intros d Hd. by rewrite (by_session_and_user_owned _ _ _ Hd). }
  split; [done|]. split; [done|]. split; [apply Hothers|].
  split; [by rewrite !Hothers|].
  intros Hnone. rewrite (delete_first_no_match _ _ Hnone).
  split; [done|]. apply delete_first_no_match, Hnone.
Qed.

Lemma delete_is_idempotent_and_owner_scoped_witness :
  (DELETE (Some Sample.alice)
     {| q_page := None; q_pageSize := None; q_q := None; q_id := Some "S2" |}
     Sample.world).1 = empty_response 204.
Proof.
  exact (proj1 (delete_is_idempotent_and_owner_scoped Sample.alice
                  {| q_page := None; q_pageSize := None; q_q := None;
                     q_id := Some "S2" |}
                  "S2" Sample.world eq_refl eq_refl)).
Defined.

(** C6, amended.  An authenticated PATCH on a session the caller owns is
    answered 204 and overwrites [updatedAt] plus exactly the supplied
    fields that pass the handler's test: a title or model that is not
    empty, any message sequence, any temperature, topP or maxTokens.
    Every other field of the document, and every other document, is left
    as it was. *)
Theorem patch_overwrites_accepted_fields u now body sid d w :
  u_sessionId body = Some sid ->
  JS.truthy sid = true ->
  let key := Db.by_session_and_user sid (userId_of u "__") in
  List.find key (chats w) = Some d ->
  let after := PATCH (Some u) now (Some body) w in
  after.1 = empty_response 204 /\
  exists d',
    chats after.2 = Db.update_first key (fun _ => d') (chats w) /\
    List.find key (chats after.2) = Some d' /\
    updatedAt d' = now /\
    title d' = match u_title body with
               | Some t => if JS.truthy t then t else title d
               | None => title d
               end /\
    messages d' = match u_messages body with
                  | Some ms => ms
                  | None => messages d
                  end /\
    model d' = match u_model body with
               | Some m => if JS.truthy m then m else model d
               | None => model d
               end /\
    temperature d' = match u_temperature body with
                     | Some t => Some t
                     | None => temperature d
                     end /\
    topP d' = match u_topP body with
              | Some t => Some t
              | None => topP d
              end /\
    maxTokens d' = match u_maxTokens body with
                   | Some t => Some t
                   | None => maxTokens d
                   end /\
    sessionId d' = sessionId d /\
    userId d' = userId d /\
    createdAt d' = createdAt d.
Proof.
  intros Hsid Ht key Hd. subst key. cbn zeta. unfold PATCH.
  rewrite Hsid, Ht. run.
  split; [done|]. exists (apply_update now body d).
  split; [|split].
  - apply update_first_found, Hd.
  - rewrite find_update_first by done. by rewrite Hd.
  - unfold apply_update. simpl. by destruct (u_messages body).
Qed.

Lemma patch_overwrites_accepted_fields_witness :
  (PATCH (Some Sample.alice) "2025-03-02T09:00:00.000Z"
     (Some {| u_sessionId := Some "S1"; u_title := Some "Greetings";
              u_messages := None; u_model := None; u_temperature := None;
              u_topP := None; u_maxTokens := None |})
     Sample.world).1 = empty_response 204.
Proof.
  exact (proj1 (patch_overwrites_accepted_fields Sample.alice
                  "2025-03-02T09:00:00.000Z"
                  {| u_sessionId := Some "S1"; u_title := Some "Greetings";
                     u_messages := None; u_model := None;
                     u_temperature := None; u_topP := None;
                     u_maxTokens := None |}
                  "S1"
                  (Sample.session_of "S1" "u-alice" "Hello"
                     "2025-02-01T08:00:00.000Z" Sample.greeting)
                  Sample.world eq_refl eq_refl eq_refl)).
Defined.

(** C6 as stated fails: a PATCH that supplies the empty title leaves the
    stored title as it was. *)
Lemma patch_ignores_empty_title :
  let body :=
    {| u_sessionId := Some "S1"; u_title := Some "";
       u_messages := None; u_model := None; u_temperature := None;
       u_topP := None; u_maxTokens := None |} in
  let after :=
    PATCH (Some Sample.alice) "2025-03-02T09:00:00.000Z" (Some body)
      Sample.world in
  let key := Db.by_session_and_user "S1" "u-alice" in
  after.1 = empty_response 204 /\
  title <$> List.find key (chats Sample.world) = Some "Hello" /\
  title <$> List.find key (chats after.2) = Some "Hello" /\
  title <$> List.find key (chats after.2) <> u_title body.
Proof.
  cbn zeta. repeat (split; [reflexivity|]).
  intros H. vm_compute in H. discriminate H.
Qed.

End SessionWrites.

(** * Reading sessions *)

Section SessionReads.
Import SessionsRoute.

Lemma filter_and (a b : Db.Filter) col :
  List.filter (fun d => a d && b d) col = List.filter b (List.filter a col).
Proof.
  induction col as [|d col IH]; simpl; [done|].
  destruct (a d); simpl; [|done]. destruct (b d); by rewrite IH.
Qed.

Lemma list_filter_split uid q col :
  List.filter (list_filter uid q) col
  = List.filter (matching_title q) (List.filter (owned_by uid) col).
Proof. apply (filter_and (owned_by uid) (matching_title q)). Qed.

(** What the listing handler answers to an authenticated caller. *)
Lemma GET_list_result u query w :
  (GET (Some u) query w).1 =
    let uid := userId_of u "unknown" in
    let mine := List.filter (list_filter uid (q_of query)) (chats w) in
    match JS.mul (JS.sub (page_of query) (JS.Int 1)) (pageSize_of query),
          pageSize_of query with
    | JS.Int skip, JS.Int limit =>
        json_list
          {| items :=
               to_item <$>
                 List.filter complete
                   (Db.without_messages <$> listed uid query skip limit (chats w));
             page := page_of query;
             total := Z.of_nat (length mine);
             totalPages :=
               JS.ceil_div_or_1 (Z.of_nat (length mine)) (pageSize_of query) |}
    | _, _ => text_response 500 "Failed to list sessions"
    end.
Proof.
  unfold GET. run.
  destruct (JS.mul _ _) as [|skip]; [done|].
  by destruct (pageSize_of query) as [|limit].
Qed.

Lemma elem_of_listed uid query skip limit col d :
  d ∈ listed uid query skip limit col ->
  d ∈ col /\ list_filter uid (q_of query) d = true.
Proof.
  unfold listed. intros H.
  apply subseteq_take, subseteq_drop in H.
  rewrite merge_sort_Permutation in H.
  apply list_elem_of_In, filter_In in H as [H1 H2].
  split; [by apply list_elem_of_In|done].
Qed.

(** C4.  The listing and the fetch of one session answer an authenticated
    caller from the caller's own documents only: whatever the query, two
    collections that hold the same documents of the caller give the same
    answers; every listed item is the metadata of a stored document whose
    owner is the caller; and a fetched document is a stored document whose
    owner is the caller.  (The listing identifies a caller without id and
    email as [unknown], the fetch as [__].) *)
Theorem reads_are_owner_scoped u query i w1 w2 :
  let me_listing := userId_of u "unknown" in
  let me := userId_of u "__" in
  List.filter (owned_by me_listing) (chats w1)
  = List.filter (owned_by me_listing) (chats w2) ->
  List.filter (owned_by me) (chats w1) = List.filter (owned_by me) (chats w2) ->
  (GET (Some u) query w1).1 = (GET (Some u) query w2).1 /\
  (SessionByIdRoute.GET (Some u) i w1).1 = (SessionByIdRoute.GET (Some u) i w2).1 /\
  (forall resp it,
      (GET (Some u) query w1).1 = json_list resp ->
      it ∈ items resp ->
      exists d, d ∈ chats w1 /\ userId d = Some me_listing /\ it = to_item d) /\
  (forall d,
      (SessionByIdRoute.GET (Some u) i w1).1 = json_doc d ->
      d ∈ chats w1 /\ userId d = Some me).
Proof.
  intros me_listing me Hlisting Hme. subst me_listing me.
  split; [|split; [|split]].
  - rewrite !GET_list_result. cbn zeta. unfold listed.
    by rewrite !list_filter_split, Hlisting.
  - unfold SessionByIdRoute.GET. destruct (JS.truthy i); [|done]. run.
    rewrite (find_in_owned _ _ (chats w1)), Hme, <- find_in_owned.
    by destruct (List.find _ (chats w2)).
  - intros resp it. rewrite GET_list_result. cbn zeta.
    destruct (JS.mul _ _) as [|skip]; [done|].
    destruct (pageSize_of query) as [|limit]; [done|].
    intros [= <-]. simpl.
    intros (d0 & -> & Hd0)%list_elem_of_fmap.
    apply list_elem_of_In, filter_In in Hd0 as [Hd0 _].
    apply list_elem_of_In, list_elem_of_fmap in Hd0 as (d & -> & Hd).
    apply elem_of_listed in Hd as [Hd Hf].
    exists d. split; [done|]. split; [|done].
    unfold list_filter in Hf. apply andb_prop in Hf as [Hf _].
    by apply bool_decide_eq_true in Hf.
  - intros d. unfold SessionByIdRoute.GET.
    destruct (JS.truthy i); [|done]. run.
    destruct (List.find _ (chats w1)) as [d'|] eqn:Hfind; [|done].
    intros [= ->]. apply find_some_elem in Hfind as [Hin Hkey].
    split; [done|]. by apply by_session_and_user_spec in Hkey as [_ ?].
Qed.

Lemma reads_are_owner_scoped_witness :
  (GET (Some Sample.alice)
     {| q_page := None; q_pageSize := None; q_q := Some "plan"; q_id := None |}
     Sample.world).1
  = (GET (Some Sample.alice)
       {| q_page := None; q_pageSize := None; q_q := Some "plan"; q_id := None |}
       {| chats := List.filter (owned_by "u-alice") (chats Sample.world);
          calls := [] |}).1.
Proof.
  exact (proj1 (reads_are_owner_scoped Sample.alice
                  {| q_page := None; q_pageSize := None; q_q := Some "plan";
                     q_id := None |}
                  "S2" Sample.world
                  {| chats := List.filter (owned_by "u-alice") (chats Sample.world);
                     calls := [] |}
                  eq_refl eq_refl)).
Defined.

End SessionReads.

(** * The listing *)

Section Listing.
Import SessionsRoute.

#[local] Instance newest_first_trans : Transitive Db.newest_first.
Proof. intros a b c Hab Hbc. unfold Db.newest_first in *. by etrans. Qed.

#[local] Instance newest_first_total : Total Db.newest_first.
Proof. intros a b. unfold Db.newest_first. apply (@base.total _ String.le _). Qed.





(** It is a number exactly when [parseInt] finds one. *)
Lemma pageSize_of_number query :
  pageSize_of query = JS.NaN <->
  JS.parseInt (JS.or_default (q_pageSize query) "20") = JS.NaN.
Proof.
  unfold pageSize_of. by destruct (JS.parseInt _).
Qed.

Lemma pageSize_of_default query :
  q_pageSize query = None -> pageSize_of query = JS.Int 20.
Proof. unfold pageSize_of. by intros ->. Qed.


Lemma string_app_cons c (a b : string) : String c a +:+ b = String c (a +:+ b).
Proof. done. Qed.




End Listing.

(** C8, at the failing input.  For the query [pageSize=abc], [parseInt]
    gives NaN, which [Math.max] and [Math.min] pass on: the page size the
    handler computes is NaN, not a number between 5 and 50. *)
Theorem page_size_of_non_numeric_query :
  JS.parseInt "abc" = JS.NaN /\
  SessionsRoute.pageSize_of Sample.query_abc = JS.NaN /\
  ~ (exists p, SessionsRoute.pageSize_of Sample.query_abc = JS.Int p /\
               (5 <= p <= 50)%Z).
Proof.
  split; [reflexivity|]. split; [reflexivity|].
  intros (p & H & _). vm_compute in H. discriminate H.
Qed.

(** * Titles *)

Section Titles.
Import ChatRoute.

Lemma trim_nonempty s : JS.truthy (JS.trim s) = true -> JS.truthy s = true.
Proof. by destruct s. Qed.

Lemma slice0_nonempty n s : JS.truthy s = true -> JS.truthy (JS.slice0 (S n) s) = true.
Proof. by destruct s. Qed.

Lemma slice0_length n s : String.length (JS.slice0 n s) <= n.
Proof.
  revert s. induction n as [|n IH]; intros [|c s]; simpl; try lia.
  specialize (IH s). lia.
Qed.

Lemma slice0_prefix n s : exists rest, s = JS.slice0 n s +:+ rest.
Proof.
  revert s. induction n as [|n IH]; intros [|c s]; simpl; try by eexists.
  destruct (IH s) as [rest Hrest]. exists rest.
  rewrite string_app_cons. by rewrite <- Hrest.
Qed.

(** The chat route derives the title of a new session from the first
    user-role message whose trimmed content is not empty: its content cut
    to 60 characters. *)
Lemma derive_title_first before m after :
  Forall (fun x => titling x = false) before ->
  titling m = true ->
  derive_title (before ++ m :: after) = JS.slice0 60 (content m) /\
  String.length (derive_title (before ++ m :: after)) <= 60.
Proof.
  intros Hbefore Hm.
  assert (derive_title (before ++ m :: after) = JS.slice0 60 (content m)) as ->.
  { unfold derive_title.
    assert (List.find titling (before ++ m :: after) = Some m) as Hfind.
    { induction Hbefore as [|x before Hx _ IH]; simpl; [by rewrite Hm|].
      by rewrite Hx. }
    change (fun m0 => is_user m0 && JS.truthy (JS.trim (content m0))) with titling.
    rewrite Hfind.
    change (JS.or_default (Some (JS.slice0 60 (content m))) "New Chat"
            = JS.slice0 60 (content m)).
    apply andb_prop in Hm as [_ Hm]. unfold JS.or_default.
    by rewrite (slice0_nonempty 59 _ (trim_nonempty _ Hm)). }
  split; [done|]. apply slice0_length.
Qed.

(** Without such a message the title is the fixed default. *)
Lemma derive_title_default msgs :
  Forall (fun x => titling x = false) msgs ->
  derive_title msgs = "New Chat".
Proof.
  intros H. unfold derive_title.
  change (fun m0 => is_user m0 && JS.truthy (JS.trim (content m0))) with titling.
  assert (List.find titling msgs = None) as ->; [|done].
  induction H as [|x msgs Hx _ IH]; simpl; [done|]. by rewrite Hx.
Qed.

(** C9, at the failing input.  Created through [POST /api/sessions]
    without a title, a session whose first user message is empty is stored
    with the default title, and one whose first user message is white
    space with that white space, although a later user message has
    content; the chat route derives the title from that later message. *)
Theorem create_title_takes_first_user_message :
  let stored msgs :=
    title <$>
      chats (SessionsRoute.POST (Some Sample.alice)
               "3b241101-e2bb-4255-8caf-4136c566a962"
               "2025-03-01T10:00:00.000Z"
               (Some (Sample.create_request msgs)) Sample.empty).2 in
  stored Sample.blank_then_question = ["New Chat"] /\
  stored Sample.spaces_then_question = ["   "] /\
  derive_title Sample.blank_then_question = "Plan a trip" /\
  derive_title Sample.spaces_then_question = "Plan a trip".
Proof. cbn zeta. repeat split; reflexivity. Qed.

End Titles.

(** * More on the chat route *)

Section ChatRouteMore.
Import ChatRoute.
Implicit Types (f : Db.Filter) (col : list StoredChatSession).
Implicit Types (u : StoredChatSession -> StoredChatSession).

Lemma key_matches sid uid d :
  Db.by_session_and_user sid uid d = true <-> key_of d = (sid, Some uid).
Proof.
  rewrite by_session_and_user_spec. unfold key_of. split.
  - by intros [-> ->].
  - by intros [= -> ->].
Qed.

Lemma find_none_key sid uid col :
  List.find (Db.by_session_and_user sid uid) col = None ->
  (sid, Some uid) ∉ key_of <$> col.
Proof.
  intros Hnone (d & Hk & Hd)%list_elem_of_fmap.
  apply list_elem_of_In in Hd.
  pose proof (find_none _ _ Hnone d Hd) as Hf.
  symmetry in Hk. apply key_matches in Hk. congruence.
Qed.

Lemma keys_update_first f u col :
  (forall d, key_of (u d) = key_of d) ->
  key_of <$> Db.update_first f u col = key_of <$> col.
Proof.
  intros Hu. induction col as [|d col IH]; simpl; [done|].
  destruct (f d); simpl; [by rewrite Hu|]. f_equal. exact IH.
Qed.

Lemma update_first_snoc f u col d :
  List.find f col = None -> f d = true ->
  Db.update_first f u (col ++ [d]) = col ++ [u d].
Proof.
  intros Hnone Hd. induction col as [|x col IH]; simpl in *.
  - by rewrite Hd.
  - destruct (f x); [done|]. by rewrite IH.
Qed.

Lemma find_snoc f col d :
  List.find f col = None -> f d = true -> List.find f (col ++ [d]) = Some d.
Proof.
  intros Hnone Hd. induction col as [|x col IH]; simpl in *.
  - by rewrite Hd.
  - destruct (f x); [done|]. by apply IH.
Qed.

(** The document the create branch inserts. *)
Lemma pre_stream_fresh sid uid now msgs mdl body w :
  List.find (Db.by_session_and_user sid uid) (chats w) = None ->
  chats (pre_stream sid uid now msgs mdl body w).2 =
    chats w ++
    [{| sessionId := sid; title := derive_title msgs; messages := msgs;
        model := mdl; temperature := req_temperature body;
        topP := req_topP body; maxTokens := req_maxTokens body;
        userId := Some uid; createdAt := now; updatedAt := now |}].
Proof. intros Hnone. unfold pre_stream. run. by rewrite Hnone. Qed.

Lemma key_self sid uid d :
  key_of d = (sid, Some uid) -> Db.by_session_and_user sid uid d = true.
Proof. apply key_matches. Qed.

(** The state of the collection after a request: it is as before, or as the
    pre-step left it, or as the post-step left it after the pre-step. *)
Lemma POST_chats_cases env w :
  chats (POST env w).2 = chats w \/
  exists body msgs mdl sid uid,
    json env = Some body /\ req_messages body = Some msgs /\
    req_model body = Some mdl /\ JS.truthy mdl = true /\
    persisting (req_sessionId body) (userId_of (session env)) = Some (sid, uid) /\
    (chats (POST env w).2
     = chats (pre_stream sid uid (preIso env) msgs mdl body w).2 \/
     exists frags,
       upstream env = Gemini.Opens (Gemini.yields frags) /\
       chats (POST env w).2
       = chats (post_stream sid uid (postIso env) (concat_text (relayed frags))
                  (pre_stream sid uid (preIso env) msgs mdl body w).2).2).
Proof.
  destruct (json env) as [body|] eqn:Hj; [|left; unfold POST; by rewrite Hj].
  destruct (req_messages body) as [msgs|] eqn:Hm;
    [|left; unfold POST; by rewrite Hj, Hm].
  destruct (req_model body) as [mdl|] eqn:Hmdl;
    [|left; unfold POST; by rewrite Hj, Hm, Hmdl].
  destruct (JS.truthy mdl) eqn:Ht;
    [|left; unfold POST; by rewrite Hj, Hm, Hmdl, Ht].
  rewrite (POST_accepted _ _ _ _ _ Hj Hm Hmdl Ht).
  destruct (persisting (req_sessionId body) (userId_of (session env)))
    as [[sid uid]|] eqn:Hp.
  - right. exists body, msgs, mdl, sid, uid. repeat (split; [done|]).
    destruct (upstream env) as [msg|s] eqn:Hup.
    + left. unfold world_at_start, pre_step. by rewrite Hp.
    + destruct (stream_shape s) as [[frags ->]|(frags & msg & ->)].
      * right. exists frags. split; [done|].
        rewrite start_yields, Hp. cbn [snd]. rewrite !post_stream_chats.
        unfold world_at_start, pre_step. by rewrite Hp.
      * left. rewrite start_yields_then_throws.
        unfold world_at_start, pre_step. by rewrite Hp.
  - left. destruct (upstream env) as [msg|s] eqn:Hup.
    + unfold world_at_start, pre_step. by rewrite Hp.
    + destruct (stream_shape s) as [[frags ->]|(frags & msg & ->)].
      * rewrite start_yields, Hp. unfold world_at_start, pre_step. by rewrite Hp.
      * rewrite start_yields_then_throws.
        unfold world_at_start, pre_step. by rewrite Hp.
Qed.

End ChatRouteMore.

Section ChatRouteExtras.
Import ChatRoute.
Implicit Types (f : Db.Filter) (col : list StoredChatSession).

Lemma other_than_update_first sid uid u col :
  (forall d, key_of (u d) = key_of d) ->
  List.filter (other_than (Db.by_session_and_user sid uid))
    (Db.update_first (Db.by_session_and_user sid uid) u col)
  = List.filter (other_than (Db.by_session_and_user sid uid)) col.
Proof.
  intros Hu. apply filter_update_first. intros d Hd. unfold other_than.
  rewrite Hd. split; [done|].
  apply key_matches in Hd. rewrite <- (Hu d) in Hd.
  apply key_matches in Hd. by rewrite Hd.
Qed.

Lemma pre_stream_others sid uid now msgs mdl body w :
  List.filter (other_than (Db.by_session_and_user sid uid))
    (chats (pre_stream sid uid now msgs mdl body w).2)
  = List.filter (other_than (Db.by_session_and_user sid uid)) (chats w).
Proof.
  destruct (List.find (Db.by_session_and_user sid uid) (chats w)) as [d|] eqn:Hd.
  - rewrite (pre_stream_existing _ _ _ _ _ _ _ _ Hd).
    destruct (lastUser msgs); [|done]. by apply other_than_update_first.
  - rewrite (pre_stream_fresh _ _ _ _ _ _ _ Hd), List.filter_app. simpl.
    unfold other_than at 2. unfold Db.by_session_and_user. simpl.
    rewrite String.eqb_refl, bool_decide_eq_true_2 by done. simpl.
    by rewrite app_nil_r.
Qed.

Lemma post_stream_others sid uid now text w :
  List.filter (other_than (Db.by_session_and_user sid uid))
    (chats (post_stream sid uid now text w).2)
  = List.filter (other_than (Db.by_session_and_user sid uid)) (chats w).
Proof. rewrite post_stream_chats. by apply other_than_update_first. Qed.

Lemma pre_stream_unique sid uid now msgs mdl body w :
  unique_keys (chats w) ->
  unique_keys (chats (pre_stream sid uid now msgs mdl body w).2).
Proof.
  unfold unique_keys. intros Hu.
  destruct (List.find (Db.by_session_and_user sid uid) (chats w)) as [d|] eqn:Hd.
  - rewrite (pre_stream_existing _ _ _ _ _ _ _ _ Hd).
    destruct (lastUser msgs); [|done]. by rewrite keys_update_first.
  - rewrite (pre_stream_fresh _ _ _ _ _ _ _ Hd), fmap_app. simpl.
    apply list.NoDup_app. split; [done|].
    split; [|apply NoDup_singleton].
    intros k Hk Hk'%list_elem_of_singleton. subst k.
    by apply (find_none_key _ _ _ Hd).
Qed.

Lemma post_stream_unique sid uid now text w :
  unique_keys (chats w) ->
  unique_keys (chats (post_stream sid uid now text w).2).
Proof.
  unfold unique_keys. rewrite post_stream_chats. by rewrite keys_update_first.
Qed.

Lemma pre_stream_store_requests sid uid now msgs mdl body w :
  upstream_requests (calls (pre_stream sid uid now msgs mdl body w).2)
  = upstream_requests (calls w).
Proof.
  unfold pre_stream, upstream_requests. run.
  destruct (List.find _ (chats w)); [destruct (lastUser msgs)|];
    simpl; rewrite ?omap_app; simpl; by rewrite ?app_nil_r.
Qed.

Lemma post_stream_store_requests sid uid now text w :
  upstream_requests (calls (post_stream sid uid now text w).2)
  = upstream_requests (calls w).
Proof.
  unfold post_stream, upstream_requests. run.
  rewrite omap_app. simpl. by rewrite app_nil_r.
Qed.

(** X1.  The first turn of a session.  When an authenticated request names
    a session that is not stored and the run completes, the collection
    gains one document, at its end: it holds the supplied messages followed
    by the assistant's reply, the derived title, the request's
    configuration and the caller as owner, and carries the times of the
    pre-step and of the post-step. *)
Theorem first_turn_creates_session env body msgs mdl sid uid frags w :
  json env = Some body ->
  req_messages body = Some msgs ->
  req_model body = Some mdl ->
  JS.truthy mdl = true ->
  persisting (req_sessionId body) (userId_of (session env)) = Some (sid, uid) ->
  List.find (Db.by_session_and_user sid uid) (chats w) = None ->
  upstream env = Gemini.Opens (Gemini.yields frags) ->
  chats (POST env w).2 =
    chats w ++
    [{| sessionId := sid;
        title := derive_title msgs;
        messages :=
          msgs ++ [{| role := assistant;
                      content := concat_text (List.filter JS.truthy frags) |}];
        model := mdl;
        temperature := req_temperature body;
        topP := req_topP body;
        maxTokens := req_maxTokens body;
        userId := Some uid;
        createdAt := preIso env;
        updatedAt := postIso env |}].
Proof.
  intros Hj Hm Hmdl Ht Hp Hnone Hup.
  rewrite (completed_turn_chats _ _ _ _ _ _ _ _ Hj Hm Hmdl Ht Hp Hup).
  rewrite post_stream_chats, (pre_stream_fresh _ _ _ _ _ _ _ Hnone).
  rewrite update_first_snoc; [done|done|].
  apply key_self. done.
Qed.

Lemma first_turn_creates_session_witness :
  length (chats (POST (Sample.env (Some Sample.alice) (Some "S9")
                         (Gemini.Opens (Gemini.yields ["Hi "; "there"])))
                   Sample.world).2) = 4.
Proof.
  rewrite (first_turn_creates_session
             (Sample.env (Some Sample.alice) (Some "S9")
                (Gemini.Opens (Gemini.yields ["Hi "; "there"])))
             (Sample.body (Some "S9")) Sample.greeting "gemini-1.5-pro"
             "S9" "u-alice" ["Hi "; "there"] Sample.world
             eq_refl eq_refl eq_refl eq_refl eq_refl eq_refl eq_refl).
  reflexivity.
Defined.

(** X2.  Without a caller identity or without a session identifier the
    chat route never persists: whatever the body and whatever the upstream
    service does, the collection is left as it was and no call is made to
    the store. *)
Theorem no_identity_no_persistence env w :
  (forall body,
      json env = Some body ->
      persisting (req_sessionId body) (userId_of (session env)) = None) ->
  chats (POST env w).2 = chats w /\
  store_calls (calls (POST env w).2) = store_calls (calls w).
Proof.
  intros Hnone.
  destruct (json env) as [body|] eqn:Hj; [|unfold POST; by rewrite Hj].
  specialize (Hnone body eq_refl).
  destruct (req_messages body) as [msgs|] eqn:Hm;
    [|unfold POST; by rewrite Hj, Hm].
  destruct (req_model body) as [mdl|] eqn:Hmdl;
    [|unfold POST; by rewrite Hj, Hm, Hmdl].
  destruct (JS.truthy mdl) eqn:Ht;
    [|unfold POST; by rewrite Hj, Hm, Hmdl, Ht].
  rewrite (POST_accepted _ _ _ _ _ Hj Hm Hmdl Ht).
  assert (world_at_start env body msgs mdl w
          = {| chats := chats w;
               calls := calls w ++ [upstream_call (request_of mdl body msgs)] |})
    as ->.
  { unfold world_at_start, pre_step. by rewrite Hnone. }
  assert (store_calls (calls w ++ [upstream_call (request_of mdl body msgs)])
          = store_calls (calls w)) as Hcalls.
  { unfold store_calls. rewrite List.filter_app. simpl. by rewrite app_nil_r. }
  destruct (upstream env) as [msg|s]; [done|].
  destruct (stream_shape s) as [[frags ->]|(frags & msg & ->)].
  - rewrite start_yields, Hnone. done.
  - rewrite start_yields_then_throws. done.
Qed.

Lemma no_identity_no_persistence_witness :
  chats (POST (Sample.env None (Some "S1")
                 (Gemini.Opens (Gemini.yields ["Hi "; "there"])))
           Sample.world).2 = chats Sample.world.
Proof.
  refine (proj1 (no_identity_no_persistence
                   (Sample.env None (Some "S1")
                      (Gemini.Opens (Gemini.yields ["Hi "; "there"])))
                   Sample.world _)).
  intros body [= <-]. reflexivity.
Defined.

(** X3.  A run that fails stores no reply.  When the generation service
    rejects the call the answer is a 500 carrying its message (or
    [unknown error] when that is empty), and when it fails while streaming
    the answer is a stream; in both cases the collection is as the
    pre-step left it: for a stored session, the transcript with the latest
    user message appended and nothing after it. *)
Theorem failed_run_stores_no_reply env body msgs mdl sid uid w :
  json env = Some body ->
  req_messages body = Some msgs ->
  req_model body = Some mdl ->
  JS.truthy mdl = true ->
  persisting (req_sessionId body) (userId_of (session env)) = Some (sid, uid) ->
  (exists msg, upstream env = Gemini.Rejects msg) \/
  (exists frags msg,
      upstream env = Gemini.Opens (Gemini.yields_then_throws frags msg)) ->
  chats (POST env w).2
  = chats (pre_stream sid uid (preIso env) msgs mdl body w).2 /\
  (forall msg,
      upstream env = Gemini.Rejects msg ->
      (POST env w).1
      = text_response 500
          ("Upstream error: " +:+ (if JS.truthy msg then msg else "unknown error"))) /\
  (forall d m,
      List.find (Db.by_session_and_user sid uid) (chats w) = Some d ->
      lastUser msgs = Some m ->
      messages <$>
        List.find (Db.by_session_and_user sid uid) (chats (POST env w).2)
      = Some (messages d ++ [m])).
Proof.
  intros Hj Hm Hmdl Ht Hp Hfail.
  assert (chats (POST env w).2
          = chats (pre_stream sid uid (preIso env) msgs mdl body w).2) as Hc.
  { rewrite (POST_accepted _ _ _ _ _ Hj Hm Hmdl Ht).
    destruct Hfail as [[msg ->]|(frags & msg & ->)].
    - unfold world_at_start, pre_step. by rewrite Hp.
    - rewrite start_yields_then_throws.
      unfold world_at_start, pre_step. by rewrite Hp. }
  split; [done|]. split.
  - intros msg Hup. by rewrite (POST_accepted _ _ _ _ _ Hj Hm Hmdl Ht), Hup.
  - intros d m Hd Hlast.
    rewrite Hc, (pre_stream_existing _ _ _ _ _ _ _ _ Hd), Hlast.
    rewrite find_update_first by done. by rewrite Hd.
Qed.

Lemma failed_run_stores_no_reply_witness :
  messages <$>
    List.find (Db.by_session_and_user "S1" "u-alice")
      (chats (POST (Sample.env (Some Sample.alice) (Some "S1")
                      (Gemini.Rejects "API key not valid"))
                Sample.world).2)
  = Some (Sample.greeting ++ [Sample.hello]).
Proof.
  refine (proj2 (proj2
    (failed_run_stores_no_reply
       (Sample.env (Some Sample.alice) (Some "S1")
          (Gemini.Rejects "API key not valid"))
       (Sample.body (Some "S1")) Sample.greeting "gemini-1.5-pro"
       "S1" "u-alice" Sample.world
       eq_refl eq_refl eq_refl eq_refl eq_refl _))
    (Sample.session_of "S1" "u-alice" "Hello" "2025-02-01T08:00:00.000Z"
       Sample.greeting)
    Sample.hello eq_refl eq_refl).
  left. by eexists.
Defined.

End ChatRouteExtras.

Section ChatRouteInvariants.
Import ChatRoute.

(** X4.  A chat request touches one session only.  For an authenticated
    request that names a session, whatever else the request holds and
    whatever the upstream service does, every document other than the
    caller's document of that session is afterwards as it was, in the same
    order. *)
Theorem chat_touches_one_session env body sid uid w :
  json env = Some body ->
  persisting (req_sessionId body) (userId_of (session env)) = Some (sid, uid) ->
  List.filter (other_than (Db.by_session_and_user sid uid)) (chats (POST env w).2)
  = List.filter (other_than (Db.by_session_and_user sid uid)) (chats w).
Proof.
  intros Hj Hp.
  destruct (POST_chats_cases env w)
    as [->|(body' & msgs & mdl & sid' & uid' & Hj' & _ & _ & _ & Hp' & Hc)];
    [done|].
  rewrite Hj in Hj'. injection Hj' as <-.
  rewrite Hp in Hp'. injection Hp' as <- <-.
  destruct Hc as [->|(frags & _ & ->)].
  - apply pre_stream_others.
  - rewrite post_stream_others. apply pre_stream_others.
Qed.

Lemma chat_touches_one_session_witness :
  List.filter (other_than (Db.by_session_and_user "S1" "u-alice"))
    (chats (POST (Sample.env (Some Sample.alice) (Some "S1")
                    (Gemini.Opens (Gemini.yields ["Hi "; "there"])))
              Sample.world).2)
  = List.filter (other_than (Db.by_session_and_user "S1" "u-alice"))
      (chats Sample.world).
Proof.
  exact (chat_touches_one_session
           (Sample.env (Some Sample.alice) (Some "S1")
              (Gemini.Opens (Gemini.yields ["Hi "; "there"])))
           (Sample.body (Some "S1")) "S1" "u-alice" Sample.world
           eq_refl eq_refl).
Defined.

(** X5.  The chat route keeps session keys unique.  If no two stored
    documents share a session identifier and an owner, the same holds
    after any chat request, whatever its body, the caller and the
    behaviour of the upstream service: the create branch only runs when the
    lookup found nothing. *)
Theorem chat_keeps_keys_unique env w :
  unique_keys (chats w) -> unique_keys (chats (POST env w).2).
Proof.
  intros Hu.
  destruct (POST_chats_cases env w)
    as [->|(body & msgs & mdl & sid & uid & _ & _ & _ & _ & _ & Hc)];
    [done|].
  destruct Hc as [->|(frags & _ & ->)].
  - by apply pre_stream_unique.
  - by apply post_stream_unique, pre_stream_unique.
Qed.

Lemma chat_keeps_keys_unique_witness :
  unique_keys
    (chats (POST (Sample.env (Some Sample.alice) (Some "S9")
                    (Gemini.Opens (Gemini.yields ["Hi "; "there"])))
              Sample.world).2).
Proof.
  apply (chat_keeps_keys_unique
           (Sample.env (Some Sample.alice) (Some "S9")
              (Gemini.Opens (Gemini.yields ["Hi "; "there"])))
           Sample.world).
  unfold unique_keys. apply (bool_decide_unpack _). vm_compute. exact I.
Defined.

(** X6.  Stored transcripts only grow.  For an authenticated request that
    names a stored session, whatever the request and the upstream service
    do, the session is still stored afterwards, its earlier transcript is
    a prefix of the new one, and its title, creation time, identifier and
    owner are unchanged. *)
Theorem transcript_only_grows env body sid uid d w :
  json env = Some body ->
  persisting (req_sessionId body) (userId_of (session env)) = Some (sid, uid) ->
  List.find (Db.by_session_and_user sid uid) (chats w) = Some d ->
  exists d',
    List.find (Db.by_session_and_user sid uid) (chats (POST env w).2) = Some d' /\
    messages d `prefix_of` messages d' /\
    title d' = title d /\ createdAt d' = createdAt d /\ key_of d' = key_of d.
Proof.
  intros Hj Hp Hd.
  destruct (POST_chats_cases env w)
    as [->|(body' & msgs & mdl & sid' & uid' & Hj' & _ & _ & _ & Hp' & Hc)].
  { exists d. done. }
  rewrite Hj in Hj'. injection Hj' as <-.
  rewrite Hp in Hp'. injection Hp' as <- <-.
  assert (exists d1,
            List.find (Db.by_session_and_user sid uid)
              (chats (pre_stream sid uid (preIso env) msgs mdl body w).2) = Some d1 /\
            messages d `prefix_of` messages d1 /\
            title d1 = title d /\ createdAt d1 = createdAt d /\
            key_of d1 = key_of d) as (d1 & Hd1 & Hpre & Ht1 & Hc1 & Hk1).
  { rewrite (pre_stream_existing _ _ _ _ _ _ _ _ Hd).
    destruct (lastUser msgs) as [m|].
    - rewrite find_update_first by done. rewrite Hd.
      eexists. split; [done|]. split; [by apply prefix_app_r|done].
    - exists d. done. }
  destruct Hc as [->|(frags & _ & ->)].
  - by exists d1.
  - rewrite post_stream_chats, find_update_first by done. rewrite Hd1.
    eexists. split; [done|]. simpl.
    split; [|done]. by apply prefix_app_r.
Qed.

Lemma transcript_only_grows_witness :
  exists d',
    List.find (Db.by_session_and_user "S1" "u-alice")
      (chats (POST (Sample.env (Some Sample.alice) (Some "S1")
                      (Gemini.Opens (Gemini.yields_then_throws ["Hi "] "reset")))
                Sample.world).2) = Some d' /\
    Sample.greeting `prefix_of` messages d' /\
    title d' = "Hello" /\ createdAt d' = "2025-02-01T08:00:00.000Z" /\
    key_of d' = ("S1", Some "u-alice").
Proof.
  exact (transcript_only_grows
           (Sample.env (Some Sample.alice) (Some "S1")
              (Gemini.Opens (Gemini.yields_then_throws ["Hi "] "reset")))
           (Sample.body (Some "S1")) "S1" "u-alice"
           (Sample.session_of "S1" "u-alice" "Hello" "2025-02-01T08:00:00.000Z"
              Sample.greeting)
           Sample.world eq_refl eq_refl eq_refl).
Defined.

(** X7.  One upstream request, built from the body alone.  Every valid
    chat request calls the generation service exactly once, with the
    requested model, the prompt built from the request's messages and the
    request's sampling parameters; the caller, the stored transcript and
    the outcome of the run have no part in it. *)
Theorem one_upstream_request_from_body env body msgs mdl w :
  json env = Some body ->
  req_messages body = Some msgs ->
  req_model body = Some mdl ->
  JS.truthy mdl = true ->
  upstream_requests (calls (POST env w).2) =
    upstream_requests (calls w) ++
    [{| Gemini.g_model := mdl;
        Gemini.g_prompt := Gemini.buildPrompt msgs;
        Gemini.g_temperature := req_temperature body;
        Gemini.g_topP := req_topP body;
        Gemini.g_maxOutputTokens := req_maxTokens body |}].
Proof.
  intros Hj Hm Hmdl Ht.
  rewrite (POST_accepted _ _ _ _ _ Hj Hm Hmdl Ht).
  assert (upstream_requests (calls (world_at_start env body msgs mdl w))
          = upstream_requests (calls w) ++ [request_of mdl body msgs]) as Hstart.
  { unfold world_at_start, pre_step. simpl.
    unfold upstream_requests at 1. rewrite omap_app. simpl. f_equal.
    destruct (persisting _ _) as [[sid uid]|]; [|done].
    apply pre_stream_store_requests. }
  destruct (upstream env) as [msg|s]; [done|].
  destruct (stream_shape s) as [[frags ->]|(frags & msg & ->)].
  - rewrite start_yields. cbn [snd].
    destruct (persisting _ _) as [[sid uid]|]; [|done].
    by rewrite post_stream_store_requests.
  - by rewrite start_yields_then_throws.
Qed.

Lemma one_upstream_request_from_body_witness :
  Gemini.g_prompt <$>
    upstream_requests
      (calls (POST (Sample.env (Some Sample.alice) (Some "S1")
                      (Gemini.Opens (Gemini.yields ["Hi "; "there"])))
                Sample.world).2)
  = ["SYSTEM: You are a helpful teaching assistant."
     +:+ String "010" "USER: Hello"].
Proof.
  rewrite (one_upstream_request_from_body
             (Sample.env (Some Sample.alice) (Some "S1")
                (Gemini.Opens (Gemini.yields ["Hi "; "there"])))
             (Sample.body (Some "S1")) Sample.greeting "gemini-1.5-pro"
             Sample.world eq_refl eq_refl eq_refl eq_refl).
  reflexivity.
Defined.

End ChatRouteInvariants.

(** * The prompt *)

Section Prompt.

Lemma join_lines_app (a b : list string) :
  a <> [] -> b <> [] ->
  Gemini.join_lines (a ++ b)
  = Gemini.join_lines a +:+ String "010" (Gemini.join_lines b).
Proof.
  intros Ha Hb. induction a as [|x a IH]; [done|].
  destruct a as [|y a].
  - destruct b as [|z b]; [done|]. done.
  - change (x +:+ String "010" (Gemini.join_lines ((y :: a) ++ b))
            = (x +:+ String "010" (Gemini.join_lines (y :: a)))
              +:+ String "010" (Gemini.join_lines b)).
    rewrite IH by done. rewrite string_app_assoc. by rewrite string_app_cons.
Qed.

(** X8.  The prompt of a conversation extends the prompt of its earlier
    part: for two non-empty runs of messages, the prompt of their
    concatenation is the prompt of the first, a line break, and the prompt
    of the second.  The prompt of no message is empty and the prompt of one
    message is its line, [ROLE: content]. *)
Theorem buildPrompt_app (a b : list ChatMessage) :
  a <> [] -> b <> [] ->
  Gemini.buildPrompt (a ++ b)
  = Gemini.buildPrompt a +:+ String "010" (Gemini.buildPrompt b).
Proof.
  intros Ha Hb. unfold Gemini.buildPrompt. rewrite map_app.
  apply join_lines_app.
  - by destruct a.
  - by destruct b.
Qed.

Lemma buildPrompt_app_witness :
  Gemini.buildPrompt (Sample.greeting ++ [{| role := assistant; content := "Hi" |}])
  = Gemini.buildPrompt Sample.greeting +:+ String "010" "ASSISTANT: Hi".
Proof.
  exact (buildPrompt_app Sample.greeting [{| role := assistant; content := "Hi" |}]
           ltac:(discriminate) ltac:(discriminate)).
Defined.

(** X9.  The prompt does not keep message boundaries or roles apart from
    content: a message whose content holds a line break followed by a
    role header gives the same prompt as the two messages it imitates. *)
Theorem buildPrompt_boundary_ambiguity r1 c1 r2 c2 rest :
  Gemini.buildPrompt
    ({| role := r1;
        content := c1 +:+ String "010" (Gemini.toUpperCase r2 +:+ ": " +:+ c2) |}
     :: rest)
  = Gemini.buildPrompt
      ({| role := r1; content := c1 |} :: {| role := r2; content := c2 |} :: rest).
Proof.
  unfold Gemini.buildPrompt. simpl.
  destruct (map _ rest) as [|l ls].
  - by rewrite !string_app_assoc.
  - rewrite !string_app_assoc. do 2 f_equal.
    by rewrite string_app_cons, !string_app_assoc.
Qed.

End Prompt.

(** * The search expression *)

Section SearchExpression.


End SearchExpression.

(** * More on the session routes *)

Section SessionRoutesMore.
Import SessionsRoute.
Implicit Types (f : Db.Filter) (col : list StoredChatSession).

(** X10.  Without a session the owner-scoped handlers do nothing: the
    listing, the creation (of a body that passes validation), the deletion
    and the update (of requests that name a session) and the fetch of one
    session all answer 401, and none of them calls the store or changes
    the world. *)
Theorem unauthenticated_requests_are_refused w :
  (forall query,
      GET None query w = (text_response 401 "Unauthorized", w)) /\
  (forall uuid now body,
      is_Some (config_with_model (c_config body)) ->
      POST None uuid now (Some body) w = (text_response 401 "Unauthorized", w)) /\
  (forall query i,
      q_id query = Some i -> JS.truthy i = true ->
      DELETE None query w = (text_response 401 "Unauthorized", w)) /\
  (forall now body sid,
      u_sessionId body = Some sid -> JS.truthy sid = true ->
      PATCH None now (Some body) w = (text_response 401 "Unauthorized", w)) /\
  (forall i,
      JS.truthy i = true ->
      SessionByIdRoute.GET None i w = (text_response 401 "Unauthorized", w)).
Proof.
  split; [done|]. split; [|split; [|split]].
  - intros uuid now body [[config mdl] Hc]. unfold POST. by rewrite Hc.
  - intros query i Hi Ht. unfold DELETE. by rewrite Hi, Ht.
  - intros now body sid Hs Ht. unfold PATCH. by rewrite Hs, Ht.
  - intros i Ht. unfold SessionByIdRoute.GET. by rewrite Ht.
Qed.

Lemma userId_of_identified u a b :
  identified u -> userId_of u a = userId_of u b.
Proof.
  unfold identified, userId_of, JS.or_else, JS.or_default.
  destruct (id u) as [[|c s]|], (email u) as [[|c' s']|]; simpl;
    intros [H|H]; done.
Qed.

(** X11.  A created session can be fetched.  When an identified caller
    creates a session under an identifier that is not empty and that the
    caller does not use yet, the answer carries that identifier, and
    fetching it answers the stored document: the supplied messages and
    configuration, the title of the request or the derived one, the
    caller as owner, and the creation time as both time stamps. *)
Theorem create_then_fetch u uuid now body config mdl w :
  config_with_model (c_config body) = Some (config, mdl) ->
  identified u ->
  JS.truthy uuid = true ->
  List.find (Db.by_session_and_user uuid (userId_of u "__")) (chats w) = None ->
  let created := POST (Some u) uuid now (Some body) w in
  created.1 = json_created uuid /\
  (SessionByIdRoute.GET (Some u) uuid created.2).1 =
    json_doc
      {| sessionId := uuid;
         title := create_title (c_title body) (default [] (c_messages body));
         messages := default [] (c_messages body);
         model := mdl;
         temperature := cfg_temperature config;
         topP := cfg_topP config;
         maxTokens := cfg_maxTokens config;
         userId := Some (userId_of u "__");
         createdAt := now;
         updatedAt := now |}.
Proof.
  intros Hc Hu Ht Hnone. cbn zeta. unfold POST. rewrite Hc. run.
  split; [done|]. unfold SessionByIdRoute.GET. rewrite Ht. run.
  rewrite (userId_of_identified u "unknown" "__" Hu).
  rewrite (find_snoc _ _ _ Hnone); [done|].
  apply key_self. done.
Qed.

Lemma create_then_fetch_witness :
  (POST (Some Sample.alice) "3b241101-e2bb-4255-8caf-4136c566a962"
     "2025-03-01T10:00:00.000Z"
     (Some (Sample.create_request Sample.greeting)) Sample.world).1
  = json_created "3b241101-e2bb-4255-8caf-4136c566a962".
Proof.
  refine (proj1 (create_then_fetch Sample.alice
                   "3b241101-e2bb-4255-8caf-4136c566a962"
                   "2025-03-01T10:00:00.000Z"
                   (Sample.create_request Sample.greeting) _ "gemini-1.5-pro"
                   Sample.world eq_refl _ eq_refl eq_refl)).
  left. reflexivity.
Defined.

Lemma find_snoc_none f col d :
  List.find f col = None -> f d = false -> List.find f (col ++ [d]) = None.
Proof.
  intros Hnone Hd. induction col as [|x col IH]; simpl in *.
  - by rewrite Hd.
  - destruct (f x); [done|]. by apply IH.
Qed.

(** X12.  The two fall-back identities differ.  For a caller whose session
    carries neither an id nor an e-mail address, a created session is
    owned by [unknown], while the fetch looks for the owner [__]: unless a
    document of [__] has that identifier, the session just created is not
    found. *)
Theorem unidentified_creator_cannot_fetch u uuid now body config mdl w :
  config_with_model (c_config body) = Some (config, mdl) ->
  JS.truthy_opt (id u) = false ->
  JS.truthy_opt (email u) = false ->
  JS.truthy uuid = true ->
  List.find (Db.by_session_and_user uuid "__") (chats w) = None ->
  let created := POST (Some u) uuid now (Some body) w in
  created.1 = json_created uuid /\
  userId <$> list.last (chats created.2) = Some (Some "unknown") /\
  (SessionByIdRoute.GET (Some u) uuid created.2).1
  = text_response 404 "Not found".
Proof.
  intros Hc Hid Hem Ht Hnone. cbn zeta. unfold POST. rewrite Hc. run.
  assert (forall fb, userId_of u fb = fb) as Hfb.
  { intros fb. unfold userId_of, JS.or_else, JS.or_default. rewrite Hid.
    destruct (email u) as [[|c s]|]; done. }
  split; [done|]. split.
  - rewrite last_snoc. simpl. by rewrite Hfb.
  - unfold SessionByIdRoute.GET. rewrite Ht. run. rewrite !Hfb.
    rewrite (find_snoc_none _ _ _ Hnone); [done|].
    unfold Db.by_session_and_user. simpl. apply andb_false_r.
Qed.

Lemma unidentified_creator_cannot_fetch_witness :
  (SessionByIdRoute.GET (Some {| id := None; email := None |})
     "3b241101-e2bb-4255-8caf-4136c566a962"
     (POST (Some {| id := None; email := None |})
        "3b241101-e2bb-4255-8caf-4136c566a962" "2025-03-01T10:00:00.000Z"
        (Some (Sample.create_request Sample.greeting)) Sample.world).2).1
  = text_response 404 "Not found".
Proof.
  exact (proj2 (proj2
    (unidentified_creator_cannot_fetch {| id := None; email := None |}
       "3b241101-e2bb-4255-8caf-4136c566a962" "2025-03-01T10:00:00.000Z"
       (Sample.create_request Sample.greeting) _ "gemini-1.5-pro"
       Sample.world eq_refl eq_refl eq_refl eq_refl eq_refl))).
Defined.

End SessionRoutesMore.

Section SessionWritesMore.
Import SessionsRoute.
Implicit Types (f : Db.Filter) (col : list StoredChatSession).

Lemma unauthenticated_requests_are_refused_witness :
  DELETE None (Sample2.only_id "S1") Sample.world
  = (text_response 401 "Unauthorized", Sample.world).
Proof.
  exact (proj1 (proj2 (proj2 (unauthenticated_requests_are_refused Sample.world)))
           (Sample2.only_id "S1") "S1" eq_refl eq_refl).
Defined.

Lemma filter_other_than_absent sid uid col :
  (sid, Some uid) ∉ key_of <$> col ->
  List.filter (other_than (Db.by_session_and_user sid uid)) col = col.
Proof.
  induction col as [|d col IH]; simpl; [done|]. intros Hk.
  apply not_elem_of_cons in Hk as [Hd Hk]. unfold other_than at 1.
  destruct (Db.by_session_and_user sid uid d) eqn:Hf.
  - apply key_matches in Hf. congruence.
  - simpl. by rewrite IH.
Qed.

Lemma delete_first_unique sid uid col :
  unique_keys col ->
  Db.delete_first (Db.by_session_and_user sid uid) col
  = List.filter (other_than (Db.by_session_and_user sid uid)) col.
Proof.
  unfold unique_keys. induction col as [|d col IH]; simpl; [done|].
  intros [Hd Hu]%list.NoDup_cons. unfold other_than at 1.
  destruct (Db.by_session_and_user sid uid d) eqn:Hf; simpl.
  - apply key_matches in Hf. rewrite Hf in Hd.
    by rewrite filter_other_than_absent.
  - by rewrite IH.
Qed.

Lemma find_other_than sid uid col :
  List.find (Db.by_session_and_user sid uid)
    (List.filter (other_than (Db.by_session_and_user sid uid)) col) = None.
Proof.
  induction col as [|d col IH]; simpl; [done|]. unfold other_than at 1.
  destruct (Db.by_session_and_user sid uid d) eqn:Hf; simpl; [done|].
  by rewrite Hf.
Qed.

Lemma keys_delete_first f col :
  key_of <$> Db.delete_first f col `sublist_of` key_of <$> col.
Proof.
  induction col as [|d col IH]; simpl; [done|].
  destruct (f d); simpl; [by apply sublist_cons|by apply sublist_skip].
Qed.

(** X13.  A deleted session is gone.  If stored keys are unique, after an
    authenticated delete of a session identifier the collection is the
    earlier one without the caller's document of that identifier, and
    fetching the identifier answers 404. *)
Theorem delete_then_fetch u query i w :
  q_id query = Some i ->
  JS.truthy i = true ->
  unique_keys (chats w) ->
  let key := Db.by_session_and_user i (userId_of u "__") in
  let after := (DELETE (Some u) query w).2 in
  chats after = List.filter (other_than key) (chats w) /\
  (SessionByIdRoute.GET (Some u) i after).1 = text_response 404 "Not found".
Proof.
  intros Hi Ht Hu. cbn zeta. unfold DELETE. rewrite Hi, Ht. run.
  rewrite (delete_first_unique _ _ _ Hu). split; [done|].
  unfold SessionByIdRoute.GET. rewrite Ht. run.
  by rewrite find_other_than.
Qed.

Lemma delete_then_fetch_witness :
  (SessionByIdRoute.GET (Some Sample.alice) "S1"
     (DELETE (Some Sample.alice) (Sample2.only_id "S1") Sample.world).2).1
  = text_response 404 "Not found".
Proof.
  refine (proj2 (delete_then_fetch Sample.alice (Sample2.only_id "S1") "S1"
                   Sample.world eq_refl eq_refl _)).
  unfold unique_keys. apply (bool_decide_unpack _). vm_compute. exact I.
Defined.

(** X14.  What a PATCH can reach.  An authenticated PATCH that names a
    session is answered 204; it changes no document's identifier or owner,
    leaves every document other than the caller's document of that
    identifier as it was, and, when the caller has no such document,
    leaves the whole collection as it was. *)
Theorem patch_scope u now body sid w :
  u_sessionId body = Some sid ->
  JS.truthy sid = true ->
  let key := Db.by_session_and_user sid (userId_of u "__") in
  let after := PATCH (Some u) now (Some body) w in
  after.1 = empty_response 204 /\
  key_of <$> chats after.2 = key_of <$> chats w /\
  List.filter (other_than key) (chats after.2)
  = List.filter (other_than key) (chats w) /\
  (List.find key (chats w) = None -> chats after.2 = chats w).
Proof.
  intros Hs Ht. cbn zeta. unfold PATCH. rewrite Hs, Ht. run.
  split; [done|]. split; [by apply keys_update_first|].
  split; [by apply other_than_update_first|].
  apply update_first_no_match.
Qed.

Lemma patch_scope_witness :
  chats (PATCH (Some Sample.alice) "2025-03-02T09:00:00.000Z"
           (Some (Sample2.rename "S2" "Mine now")) Sample.world).2
  = chats Sample.world.
Proof.
  exact (proj2 (proj2 (proj2
    (patch_scope Sample.alice "2025-03-02T09:00:00.000Z"
       (Sample2.rename "S2" "Mine now") "S2" Sample.world eq_refl eq_refl)))
    eq_refl).
Defined.

(** X16.  The session routes keep session keys unique.  If no two stored
    documents share a session identifier and an owner, the same holds
    after any delete and any PATCH, and after a creation whose fresh
    identifier the caller does not use yet. *)
Theorem session_writes_keep_keys_unique who w :
  unique_keys (chats w) ->
  (forall query, unique_keys (chats (DELETE who query w).2)) /\
  (forall now json, unique_keys (chats (PATCH who now json w).2)) /\
  (forall uuid now json,
      (forall u, who = Some u ->
         List.find (Db.by_session_and_user uuid (userId_of u "unknown")) (chats w)
         = None) ->
      unique_keys (chats (POST who uuid now json w).2)).
Proof.
  intros Hu. split; [|split].
  - intros query. unfold DELETE.
    destruct (q_id query) as [i|]; [|done].
    destruct (JS.truthy i); [|done]. destruct who as [u|]; [|done]. run.
    exact (sublist_NoDup _ _ Hu (keys_delete_first _ _)).
  - intros now json. unfold PATCH. destruct json as [body|]; [|done].
    destruct (u_sessionId body) as [sid|]; [|done].
    destruct (JS.truthy sid); [|done]. destruct who as [u|]; [|done]. run.
    unfold unique_keys. by rewrite keys_update_first.
  - intros uuid now json Hfresh. unfold POST. destruct json as [body|]; [|done].
    destruct (config_with_model _) as [[config mdl]|]; [|done].
    destruct who as [u|]; [|done]. run.
    unfold unique_keys. rewrite fmap_app. simpl.
    apply list.NoDup_app. split; [done|]. split; [|apply NoDup_singleton].
    intros k Hk Hk'%list_elem_of_singleton. subst k.
    by apply (find_none_key _ _ _ (Hfresh u eq_refl)).
Qed.

Lemma session_writes_keep_keys_unique_witness :
  unique_keys
    (chats (DELETE (Some Sample.alice) (Sample2.only_id "S1") Sample.world).2).
Proof.
  refine (proj1 (session_writes_keep_keys_unique (Some Sample.alice)
                   Sample.world _) (Sample2.only_id "S1")).
  unfold unique_keys. apply (bool_decide_unpack _). vm_compute. exact I.
Defined.

End SessionWritesMore.

Section Pagination.
Import SessionsRoute.










End Pagination.

(** * Accounts *)

Section AccountsProperties.
Import Accounts.

Lemma find_app_last {A} (f : A -> bool) (l : list A) (x : A) :
  List.find f l = None -> f x = true -> List.find f (l ++ [x]) = Some x.
Proof.
  intros Hnone Hx. induction l as [|y l IH]; simpl in *.
  - by rewrite Hx.
  - destruct (f y); [done|]. by apply IH.
Qed.

Lemma findOne_by_email_none e users :
  findOne_by_email e users = None -> e ∉ user_email <$> users.
Proof.
  intros Hnone (a & -> & Ha)%list_elem_of_fmap.
  apply list_elem_of_In in Ha.
  pose proof (find_none _ _ Hnone a Ha) as Hf. simpl in Hf.
  by rewrite String.eqb_refl in Hf.
Qed.

(** What a registration that is answered 201 has done. *)
Lemma registered env body users users' :
  POST env (Some body) users = (empty_response 201, users') ->
  exists em pw,
    normalized_email body = Some em /\ r_password body = Some pw /\
    JS.truthy em = true /\ JS.truthy pw = true /\ 6 <= String.length pw /\
    findOne_by_email em users = None /\
    users' = users ++
             [{| user_userId := uuid env; user_email := em;
                 passwordHash := bcrypt_hash env pw;
                 user_createdAt := now env; user_updatedAt := now env |}].
Proof.
  unfold POST, refused.
  destruct (normalized_email body) as [em|]; [|intros H; discriminate H].
  destruct (r_password body) as [pw|];
    [|destruct (_ || _); intros H; discriminate H].
  simpl. destruct (JS.truthy em) eqn:Hem; [|intros H; discriminate H].
  destruct (JS.truthy pw) eqn:Hpw; [|intros H; discriminate H]. simpl.
  destruct (String.length pw <? 6)%nat eqn:Hlen; [intros H; discriminate H|].
  apply Nat.ltb_ge in Hlen.
  destruct (findOne_by_email em users) eqn:Hfind; [intros H; discriminate H|].
  intros [= <-]. by exists em, pw.
Qed.

(** X21.  A registered account can log in.  After a registration that is
    answered 201, [authorize] accepts the registered password together
    with any e-mail text whose lower-case form is the stored address (the
    submitted one in lower case, trimmed), provided [bcrypt.compare]
    accepts the password against the hash [bcrypt.hash] gave; it answers
    the new account's identifier and address. *)
Theorem register_then_authorize cmp env body users users' pw e :
  POST env (Some body) users = (empty_response 201, users') ->
  r_password body = Some pw ->
  cmp pw (bcrypt_hash env pw) = true ->
  normalized_email body = Some (toLowerCase e) ->
  authorize cmp users'
    (Some {| c_email := Some e; c_password := Some pw |})
  = Some {| id := Some (uuid env); email := Some (toLowerCase e) |}.
Proof.
  intros Hreg Hpw Hcmp He.
  destruct (registered _ _ _ _ Hreg)
    as (em & pw' & Hem & Hpw' & Htem & Htpw & _ & Hnone & ->).
  rewrite He in Hem. injection Hem as <-.
  rewrite Hpw in Hpw'. injection Hpw' as <-.
  unfold authorize. simpl. rewrite Htem, Htpw. simpl.
  unfold findOne_by_email in *.
  rewrite (find_app_last _ _ _ Hnone); [|simpl; apply String.eqb_refl].
  simpl. by rewrite Hcmp.
Qed.

Lemma register_then_authorize_witness :
  authorize Sample3.compare (POST Sample3.env (Some Sample3.signup) []).2
    (Sample3.login "USER@example.com" "secret1")
  = Some {| id := Some "7c9e6679-7425-40de-944b-e07fc1f90ae7";
            email := Some "user@example.com" |}.
Proof.
  exact (register_then_authorize Sample3.compare Sample3.env Sample3.signup
           [] _ "secret1" "USER@example.com"
           eq_refl eq_refl eq_refl eq_refl).
Defined.

(** X22.  An address registers once.  After a registration that is
    answered 201, a registration whose address has the same lower-case,
    trimmed form and whose password is acceptable is answered 409 and
    stores nothing. *)
Theorem register_twice env body users users' env2 body2 :
  POST env (Some body) users = (empty_response 201, users') ->
  normalized_email body2 = normalized_email body ->
  refused (normalized_email body2) (r_password body2) = false ->
  POST env2 (Some body2) users'
  = (text_response 409 "Email already registered", users').
Proof.
  intros Hreg He Hok.
  destruct (registered _ _ _ _ Hreg)
    as (em & pw & Hem & _ & _ & _ & _ & Hnone & ->).
  unfold POST. rewrite Hok, He, Hem.
  destruct (r_password body2) as [pw2|] eqn:Hpw2.
  - unfold findOne_by_email in *.
    rewrite (find_app_last _ _ _ Hnone); [done|]. simpl. apply String.eqb_refl.
  - unfold refused in Hok. simpl in Hok.
    by rewrite orb_false_r, orb_true_r in Hok.
Qed.

Lemma register_twice_witness :
  POST Sample3.env
    (Some {| r_email := Some "user@EXAMPLE.com"; r_password := Some "another-password" |})
    (POST Sample3.env (Some Sample3.signup) []).2
  = (text_response 409 "Email already registered",
     (POST Sample3.env (Some Sample3.signup) []).2).
Proof.
  exact (register_twice Sample3.env Sample3.signup [] _ Sample3.env
           {| r_email := Some "user@EXAMPLE.com";
              r_password := Some "another-password" |}
           eq_refl eq_refl eq_refl).
Defined.

(** X23.  Registration keeps addresses unique and stores nothing when it
    refuses.  If no two stored accounts share an address, the same holds
    after any registration request; and unless the answer is 201 the
    collection is as it was. *)
Theorem register_keeps_emails_unique env json users :
  NoDup (user_email <$> users) ->
  NoDup (user_email <$> (POST env json users).2) /\
  ((POST env json users).1 <> empty_response 201 ->
   (POST env json users).2 = users).
Proof.
  intros Hu. unfold POST. destruct json as [body|]; [|done].
  destruct (refused _ _); [done|].
  destruct (normalized_email body) as [em|]; [|done].
  destruct (r_password body) as [pw|]; [|done].
  destruct (findOne_by_email em users) eqn:Hfind; [done|].
  simpl. split; [|done]. rewrite fmap_app. simpl.
  apply list.NoDup_app. split; [done|]. split; [|apply NoDup_singleton].
  intros e He He'%list_elem_of_singleton. subst e.
  by apply (findOne_by_email_none _ _ Hfind).
Qed.

Lemma register_keeps_emails_unique_witness :
  NoDup (user_email <$> (POST Sample3.env (Some Sample3.signup) []).2).
Proof.
  exact (proj1 (register_keeps_emails_unique Sample3.env (Some Sample3.signup)
                  [] NoDup_nil_2)).
Defined.

(** X24.  A login is answered only for a stored account.  Whenever
    [authorize] answers a user, the credentials carry an e-mail text and a
    password, an account is stored under the lower-case form of that
    text, [bcrypt.compare] accepted the password against that account's
    hash, and the answer carries that account's identifier and address. *)
Theorem authorize_sound cmp users credentials signed :
  authorize cmp users credentials = Some signed ->
  exists e pw account,
    credentials = Some {| c_email := Some e; c_password := Some pw |} /\
    account ∈ users /\
    user_email account = toLowerCase e /\
    cmp pw (passwordHash account) = true /\
    signed = {| id := Some (user_userId account);
                email := Some (user_email account) |}.
Proof.
  unfold authorize. destruct credentials as [[[e|] [pw|]]|]; try done.
  simpl. destruct (JS.truthy (toLowerCase e) && JS.truthy pw); [|done].
  destruct (findOne_by_email _ users) as [account|] eqn:Hfind; [|done].
  destruct (cmp pw (passwordHash account)) eqn:Hcmp; [|done].
  intros [= <-]. exists e, pw, account. split; [done|].
  apply find_some in Hfind as [Hin Hem]. simpl in Hem.
  apply String.eqb_eq in Hem. split; [by apply list_elem_of_In|done].
Qed.

Lemma authorize_sound_witness :
  exists e pw account,
    Sample3.login "user@example.com" "secret1"
    = Some {| c_email := Some e; c_password := Some pw |} /\
    account ∈ (POST Sample3.env (Some Sample3.signup) []).2 /\
    user_email account = toLowerCase e /\
    Sample3.compare pw (passwordHash account) = true /\
    {| id := Some "7c9e6679-7425-40de-944b-e07fc1f90ae7";
       email := Some "user@example.com" |}
    = {| id := Some (user_userId account); email := Some (user_email account) |}.
Proof.
  exact (authorize_sound Sample3.compare
           (POST Sample3.env (Some Sample3.signup) []).2
           (Sample3.login "user@example.com" "secret1") _ eq_refl).
Defined.

(** X26.  The caller is identified by the account identifier.  After a
    login that [authorize] answered with a non-empty identifier, and
    whatever user object the session starts from, the [jwt] and [session]
    callbacks give a session in which the chat route, every session route
    (whatever its fall-back) and [mapUserId] all read that identifier. *)
Theorem identity_is_account_id signed token base :
  JS.truthy_opt (id signed) = true ->
  exists u,
    session (Some base) (jwt token (Some signed)) = Some u /\
    ChatRoute.userId_of (Some u) = id signed /\
    (forall fallback, Some (SessionsRoute.userId_of u fallback) = id signed) /\
    mapUserId (Some u) = id signed.
Proof.
  intros Hid. unfold session, jwt. simpl. rewrite Hid.
  eexists. split; [done|].
  unfold ChatRoute.userId_of, SessionsRoute.userId_of, mapUserId,
    JS.or_else, JS.or_default. simpl. rewrite Hid.
  destruct (id signed) as [[|c s]|]; done.
Qed.

Lemma identity_is_account_id_witness :
  exists u,
    session (Some {| id := None; email := Some "user@example.com" |})
      (jwt {| uid := None |}
         (authorize Sample3.compare (POST Sample3.env (Some Sample3.signup) []).2
            (Sample3.login "user@example.com" "secret1")))
    = Some u /\
    ChatRoute.userId_of (Some u) = Some "7c9e6679-7425-40de-944b-e07fc1f90ae7".
Proof.
  destruct (identity_is_account_id
              {| id := Some "7c9e6679-7425-40de-944b-e07fc1f90ae7";
                 email := Some "user@example.com" |}
              {| uid := None |}
              {| id := None; email := Some "user@example.com" |} eq_refl)
    as (u & Hs & Hc & _).
  exists u. split; [exact Hs|exact Hc].
Defined.

End AccountsProperties.

Section PaginationWitness.
Import SessionsRoute.


End PaginationWitness.

(** * The lines of the stream *)

Section WireFraming.

Lemma has_newline_app (a b : string) :
  has_newline (a +:+ b) = has_newline a || has_newline b.
Proof.
  induction a as [|c a IH]; [done|].
  rewrite string_app_cons. simpl. by rewrite IH, orb_assoc.
Qed.

Lemma escape_unit_no_newline c : has_newline (Json.escape_unit c) = false.
Proof. by destruct c as [[] [] [] [] [] [] [] []]. Qed.

Lemma escape_units_no_newline s : has_newline (Json.escape_units s) = false.
Proof.
  induction s as [|c s IH]; [done|].
  change (Json.escape_units (String c s))
    with (Json.escape_unit c +:+ Json.escape_units s).
  by rewrite has_newline_app, escape_unit_no_newline, IH.
Qed.

Lemma stringify_string_no_newline s :
  has_newline (Json.stringify_string s) = false.
Proof.
  unfold Json.stringify_string. simpl.
  by rewrite has_newline_app, escape_units_no_newline.
Qed.

Lemma string_of_uint_no_newline d :
  has_newline (NilEmpty.string_of_uint d) = false.
Proof. induction d; simpl; done. Qed.

Lemma stringify_int_no_newline z : has_newline (Json.stringify_int z) = false.
Proof.
  unfold Json.stringify_int, NilZero.string_of_int, NilZero.string_of_uint.
  destruct (Z.to_int z) as [d|d]; destruct d; simpl;
    by rewrite ?string_of_uint_no_newline.
Qed.

Lemma payload_no_newline e : has_newline (Wire.payload e) = false.
Proof.
  destruct e as [d|n ms|d|]; unfold Wire.payload;
    rewrite ?has_newline_app, ?stringify_string_no_newline,
      ?stringify_int_no_newline; done.
Qed.

Lemma split_line (l rest : string) :
  has_newline l = false ->
  Client.split (l +:+ String "010" rest) = l :: Client.split rest.
Proof.
  induction l as [|c l IH]; [done|]. simpl.
  intros [Hc Hl]%orb_false_elim. by rewrite Hc, (IH Hl).
Qed.

Lemma line_is_data_line e :
  Wire.line e = data_line e +:+ String "010" "".
Proof. unfold Wire.line, data_line. by rewrite string_app_assoc. Qed.

Lemma data_line_no_newline e : has_newline (data_line e) = false.
Proof. unfold data_line. by rewrite has_newline_app, payload_no_newline. Qed.

Lemma split_lines (es : list StreamEnvelope) :
  Client.split (concat_text (Wire.line <$> es)) = (data_line <$> es) ++ [""].
Proof.
  induction es as [|e es IH]; [done|].
  change (concat_text (Wire.line <$> e :: es))
    with (Wire.line e +:+ concat_text (Wire.line <$> es)).
  rewrite line_is_data_line, string_app_assoc.
  change (String "010" "" +:+ concat_text (Wire.line <$> es))
    with (String "010" (concat_text (Wire.line <$> es))).
  rewrite split_line by apply data_line_no_newline.
  by rewrite IH.
Qed.

(** X25.  Every envelope travels on a line of its own.  The text of an
    envelope holds no line feed, whatever the streamed text or the error
    message; so cutting what the relay wrote at the line feeds, and
    dropping the empty piece at the end as the client does, gives one line
    per envelope, in order: [data: ] followed by the envelope's text. *)
Theorem stream_lines_are_framed (es : list StreamEnvelope) :
  Forall (fun e => has_newline (Wire.payload e) = false) es /\
  List.filter JS.truthy (Client.split (concat_text (Wire.line <$> es)))
  = (fun e => "data: " +:+ Wire.payload e) <$> es.
Proof.
  split.
  - apply Forall_forall. intros e _. apply payload_no_newline.
  - rewrite split_lines, List.filter_app. simpl. rewrite app_nil_r.
    induction es as [|e es IH]; [done|]. simpl. f_equal. exact IH.
Qed.

End WireFraming.

(** * The client's reading loop *)

Section ClientReading.
Context (parse : string -> option StreamEnvelope).

Lemma data_line_cons e :
  data_line e
  = String "d" (String "a" (String "t" (String "a" (String ":" (String " "
      (Wire.payload e)))))).
Proof. done. Qed.

Lemma substring_all s : String.substring 0 (String.length s) s = s.
Proof. induction s as [|c s IH]; simpl; [done|]. by rewrite IH. Qed.

Lemma prefix_empty s : String.prefix "" s = true.
Proof. by destruct s. Qed.

Lemma strip_data_line e : Client.strip_data (data_line e) = Wire.payload e.
Proof.
  rewrite data_line_cons. unfold Client.strip_data.
  assert (String.prefix "data: "
            (String "d" (String "a" (String "t" (String "a" (String ":"
               (String " " (Wire.payload e)))))))
          = true) as -> by apply prefix_empty.
  change (String.substring 0 (String.length (Wire.payload e) - 0)
            (Wire.payload e) = Wire.payload e).
  rewrite Nat.sub_0_r. apply substring_all.
Qed.

Lemma data_line_prefix e : String.prefix "data:" (data_line e) = true.
Proof. by rewrite data_line_cons. Qed.

Lemma payload_not_done e :
  e <> DONE -> String.eqb (Wire.payload e) "[DONE]" = false.
Proof. by destruct e. Qed.

Lemma read_token d r :
  reads parse (token d) ->
  Client.returned r = false ->
  let r' := read_envelope parse r (token d) in
  Client.fullText r' = Client.fullText r +:+ d /\
  Client.returned r' = false /\
  settled (Client.ui r') = settled (Client.ui r).
Proof.
  intros Hp Hr. cbn zeta. unfold read_envelope, Client.on_line.
  rewrite Hr, data_line_prefix, strip_data_line. cbn [negb].
  rewrite payload_not_done by done. by rewrite Hp.
Qed.

Lemma read_meta n ms r :
  reads parse (meta n ms) ->
  Client.returned r = false ->
  let r' := read_envelope parse r (meta n ms) in
  Client.fullText r' = Client.fullText r /\
  Client.returned r' = false /\
  settled (Client.ui r') = settled (Client.ui r).
Proof.
  intros Hp Hr. cbn zeta. unfold read_envelope, Client.on_line.
  rewrite Hr, data_line_prefix, strip_data_line. cbn [negb].
  rewrite payload_not_done by done. by rewrite Hp.
Qed.

Lemma read_error d r :
  reads parse (error d) ->
  Client.returned r = false ->
  let r' := read_envelope parse r (error d) in
  Client.fullText r' = Client.fullText r /\
  Client.returned r' = false /\
  Client.ui r' =
    Client.setMessages
      (fun m => m ++ [{| role := assistant;
                         content := "[Error: " +:+ d +:+ "]" |}])
      (Client.setStreaming false (settled (Client.ui r))).
Proof.
  intros Hp Hr. cbn zeta. unfold read_envelope, Client.on_line.
  rewrite Hr, data_line_prefix, strip_data_line. cbn [negb].
  rewrite payload_not_done by done. by rewrite Hp.
Qed.

Lemma read_done r :
  Client.returned r = false ->
  let r' := read_envelope parse r DONE in
  Client.fullText r' = Client.fullText r /\
  Client.returned r' = true /\
  Client.ui r' =
    Client.setMessages
      (fun m => m ++ [{| role := assistant; content := Client.fullText r |}])
      (Client.refreshSessions
         (Client.setStreaming false (settled (Client.ui r)))).
Proof.
  intros Hr. cbn zeta. unfold read_envelope, Client.on_line.
  rewrite Hr, data_line_prefix, strip_data_line. done.
Qed.

Lemma read_after_return r es :
  Client.returned r = true -> foldl (read_envelope parse) r es = r.
Proof.
  intros Hr. induction es as [|e es IH]; [done|]. simpl.
  unfold read_envelope at 2, Client.on_line. by rewrite Hr.
Qed.

(** Reading the lines of [token] envelopes only gathers their text. *)
Lemma read_tokens ds r :
  Forall (fun d => reads parse (token d)) ds ->
  Client.returned r = false ->
  let r' := foldl (read_envelope parse) r (token <$> ds) in
  Client.fullText r' = Client.fullText r +:+ concat_text ds /\
  Client.returned r' = false /\
  settled (Client.ui r') = settled (Client.ui r).
Proof.
  cbn zeta. revert r. induction ds as [|d ds IH]; intros r Hp Hr.
  - simpl. by rewrite string_app_empty_r.
  - apply list.Forall_cons in Hp as [Hd Hp].
    destruct (read_token d r Hd Hr) as (Hf & Hr' & Hs).
    change (foldl (read_envelope parse) r (token <$> d :: ds))
      with (foldl (read_envelope parse) (read_envelope parse r (token d))
              (token <$> ds)).
    destruct (IH _ Hp Hr') as (Hf2 & Hr2 & Hs2).
    rewrite Hf2, Hf, Hr2, Hs2, Hs.
    change (concat_text (d :: ds)) with (d +:+ concat_text ds).
    by rewrite string_app_assoc.
Qed.

Lemma concat_fmap_inv {A B} (f : A -> B) (groups : list (list B)) (l : list A) :
  concat groups = fmap (M:=list) f l ->
  exists parts : list (list A),
    groups = fmap (M:=list) (fmap (M:=list) f) parts /\ concat parts = l.
Proof.
  revert l. induction groups as [|g groups IH]; intros l H.
  - simpl in H. symmetry in H. apply fmap_nil_inv in H as ->. by exists [].
  - simpl in H. symmetry in H.
    apply fmap_app_inv in H as (l1 & l2 & Hg & Hrest & ->).
    destruct (IH l2 Hrest) as (parts & -> & <-).
    exists (l1 :: parts). by rewrite Hg.
Qed.

Lemma on_chunk_lines es r :
  Client.on_chunk parse (concat_text (Wire.line <$> es)) r
  = foldl (read_envelope parse) r es.
Proof.
  unfold Client.on_chunk. rewrite split_lines, List.filter_app. simpl.
  rewrite app_nil_r.
  assert (List.filter JS.truthy (data_line <$> es) = data_line <$> es) as ->.
  { induction es as [|e es IH]; [done|]. simpl. f_equal. exact IH. }
  revert r. induction es as [|e es IH]; intros r; [done|]. simpl. apply IH.
Qed.

(** The reading loop on lines that arrive whole reads the envelopes in
    order. *)
Lemma read_all_aligned deliver es r :
  aligned deliver (Wire.line <$> es) ->
  Client.read_all parse (deliver (Wire.line <$> es)) r
  = foldl (read_envelope parse) r es.
Proof.
  intros (groups & Hg & ->).
  apply concat_fmap_inv in Hg as (parts & -> & <-).
  unfold Client.read_all. revert r.
  induction parts as [|p parts IH]; intros r; [done|]. simpl.
  rewrite on_chunk_lines, IH. by rewrite foldl_app.
Qed.

End ClientReading.
